(** * POSIX shims of the WASIX libc: [ttyname_r], [pthread_setname_np],
      [sigset_t] and [pselect]

    A shallow embedding of

    - [libc-top-half/musl/src/unistd/ttyname_r.c],
    - [libc-top-half/musl/src/thread/pthread_setname_np.c],
    - [libc-bottom-half/headers/public/sys/select.h],

    (both branches of the two C files: the WASI build and the build with
    [__wasilibc_unmodified_upstream]), followed by the properties the
    specification states about them and by further properties read off the
    code.

    C integers ([int], [size_t], [uint8_t]) are values of [Z] or [N]; the
    embedded functions only compare them, so no wrap-around is written out.
    Addresses are values of [N], and a buffer is taken not to run past the
    end of the address space.  Bytes are [Byte.byte].
    Effects (the store into the caller's buffer, [errno], the calls made to
    the host) are threaded through a small state monad whose state carries a
    chronological trace of every store and every host call. *)

From Stdlib Require Import ZArith NArith List Lia Bool.
From Stdlib Require Import Strings.Byte Strings.String DecimalString.
From stdpp Require Import base list gmap.

Import ListNotations.
Local Open Scope Z_scope.

(** ** Bytes and C strings *)

Abbreviation byte := Byte.byte.

(** The characters of a string literal, without its terminating NUL. *)
Definition c_str (s : string) : list byte := list_byte_of_string s.

Definition is_nul (b : byte) : bool := Byte.eqb b x00.

(** ** Machine state *)

(** Result of a POSIX system call as the libc wrapper sees it: a value, or
    an error number that the wrapper stores into [errno] before returning
    [-1]. *)
Inductive outcome :=
| Done (v : Z)
| Failed (e : Z).

(** What the program does to the outside: stores through the pointers it was
    given, and calls to the host. *)
Inductive event :=
| EvStore (addr : N) (b : byte)
| EvTtyGet
| EvPrctl (opt : Z) (arg : list byte)
| EvOpen (path : list byte) (flags : Z)
| EvWrite (fd : Z) (data : list byte)
| EvClose (fd : Z).

Record state := mkState {
  errno : Z;                 (* the thread's errno *)
  mem : N -> byte;           (* linear memory *)
  canceldisable : Z;         (* cancel state of the calling thread *)
  trace : list event         (* oldest event first *)
}.

(** ** The state monad *)

Definition M (A : Type) : Type := state -> A * state.

Definition ret {A} (a : A) : M A := fun st => (a, st).

Definition bind {A B} (m : M A) (k : A -> M B) : M B :=
  fun st => let '(a, st') := m st in k a st'.

Notation "x <- m ;; k" := (bind m (fun x => k))
  (at level 100, m at next level, right associativity).
Notation "m ;;; k" := (bind m (fun _ => k))
  (at level 100, right associativity).

Definition emit (e : event) : M unit :=
  fun st => (tt, mkState (errno st) (mem st) (canceldisable st) (trace st ++ [e])).

Definition set_errno (e : Z) : M unit :=
  fun st => (tt, mkState e (mem st) (canceldisable st) (trace st)).

Definition get_errno : M Z := fun st => (errno st, st).

(** [*p = b] *)
Definition store (p : N) (b : byte) : M unit :=
  fun st =>
    (tt, mkState (errno st)
                 (fun a => if N.eqb a p then b else mem st a)
                 (canceldisable st)
                 (trace st ++ [EvStore p b])).

Definition is_store (e : event) : bool :=
  match e with EvStore _ _ => true | _ => false end.

(** The stores among a list of events. *)
Definition stores_of (evs : list event) : list event :=
  List.filter is_store evs.

(** The host calls among a list of events. *)
Definition host_calls_of (evs : list event) : list event :=
  List.filter (fun e => negb (is_store e)) evs.

(** The NUL-terminated string found at [p], looking at no more than [cap]
    bytes: [None] when none of these bytes is NUL. *)
Fixpoint read_cstr (m : N -> byte) (p : N) (cap : nat) : option (list byte) :=
  match cap with
  | O => None
  | S k =>
      if is_nul (m p) then Some []
      else match read_cstr m (N.succ p) k with
           | Some s => Some (m p :: s)
           | None => None
           end
  end.

(** ** Constants and host *)

(** Values of the macros the three files take from headers that are not part
    of the verified sources.  They are parameters of the development. *)
Record constants := mkConstants {
  ENOTTY : Z;
  ERANGE : Z;
  EINVAL : Z;
  PR_SET_NAME : Z;
  O_WRONLY : Z
}.

(* pthread.h *)
Definition PTHREAD_CANCEL_DISABLE : Z := 1.

(* ttyname_r.c, lines 11-13 *)
Definition __WASI_BOOL_FALSE : Z := 0.
Definition __WASI_BOOL_TRUE : Z := 1.

(* ttyname_r.c, lines 18-64; the flags are [uint8_t] *)
Record __wasi_tty_t := mkTty {
  cols : Z;
  rows : Z;
  width : Z;
  height : Z;
  stdin_tty : Z;
  stdout_tty : Z;
  stderr_tty : Z;
  echo : Z;
  line_buffered : Z
}.

(** The host: what each imported call answers.  [tty_get] is the error code
    of the terminal query and the record it leaves behind the out pointer. *)
Record host := mkHost {
  tty_get : Z * __wasi_tty_t;
  sys_prctl : Z -> list byte -> outcome;
  sys_open : list byte -> Z -> outcome;
  sys_write : Z -> list byte -> outcome;
  sys_close : Z -> outcome
}.

(** A libc wrapper around a system call: the value, or [-1] with [errno]. *)
Definition syscall_ret (o : outcome) : M Z :=
  match o with
  | Done v => ret v
  | Failed e => set_errno e ;;; ret (-1)
  end.

Definition __wasi_tty_get (h : host) : M (Z * __wasi_tty_t) :=
  emit EvTtyGet ;;; ret (tty_get h).

(** ** [strncpy] *)

(** Modelled from the spec: [strncpy] is the C library routine the shim
    calls for its copy "bounded by the supplied capacity"; its file is not
    among the verified sources.  Following ISO C, exactly [n] bytes are
    stored at [d], [d+1], ...: the characters of [s] up to its terminator,
    then NUL bytes.  [s] lists the bytes found at the source pointer; the end
    of the list stands for the terminator. *)
Fixpoint strncpy_loop (d : N) (s : list byte) (n : nat) : M unit :=
  match n with
  | O => ret tt
  | S n' =>
      match s with
      | [] => store d x00 ;;; strncpy_loop (N.succ d) [] n'
      | c :: s' =>
          store d c ;;;
          strncpy_loop (N.succ d) (if is_nul c then [] else s') n'
      end
  end.

Definition strncpy (d : N) (s : list byte) (n : N) : M N :=
  strncpy_loop d s (N.to_nat n) ;;; ret d.

(** ** [ttyname_r] (ttyname_r.c, lines 67-111, the WASI branch) *)

Definition ttyname_r (K : constants) (h : host)
    (fd : Z) (name : N) (size : N) : M Z :=
  q <- __wasi_tty_get h ;;
  let r := fst q in
  let tty := snd q in
  if negb (r =? 0) then
    set_errno r ;;;
    ret 0
  else if (fd =? 0) && (stdin_tty tty =? __WASI_BOOL_TRUE) then
    strncpy name (c_str "/dev/stdin") size ;;;
    ret 0
  else if (fd =? 1) && (stdout_tty tty =? __WASI_BOOL_TRUE) then
    strncpy name (c_str "/dev/stdout") size ;;;
    ret 0
  else if (fd =? 2) && (stderr_tty tty =? __WASI_BOOL_TRUE) then
    strncpy name (c_str "/dev/stderr") size ;;;
    ret 0
  else
    ret (ENOTTY K).

(** ** [pthread_setname_np] (pthread_setname_np.c) *)

(** A [pthread_t] points to the thread descriptor; the code compares the
    pointers and reads the [tid] field behind one of them. *)
Record pthread_t := mkThread {
  thread_addr : N;
  tid : Z
}.

Definition pthread_eqb (a b : pthread_t) : bool :=
  N.eqb (thread_addr a) (thread_addr b).

(** Modelled from the spec: [strnlen] of the C library (not among the
    verified sources), used to check the name "bounded length,
    conventionally <= 15 visible characters": the number of bytes before the
    first NUL, looking at no more than [n] bytes. *)
Fixpoint strnlen (s : list byte) (n : nat) : nat :=
  match n, s with
  | S n', c :: s' => if is_nul c then O else S (strnlen s' n')
  | _, _ => O
  end.

(** Length of the C string at [s]. *)
Definition strlen (s : list byte) : nat := strnlen s (length s).

(** Modelled from the spec: [pthread_setcancelstate] of the thread subsystem
    (out of scope of the verified sources).  It rejects a state above 2 and
    otherwise swaps the cancel state of the caller, handing back the old
    one. *)
Definition pthread_setcancelstate (K : constants) (new : Z) : M (Z * option Z) :=
  fun st =>
    if (0 <=? new) && (new <=? 2) then
      ((0, Some (canceldisable st)),
       mkState (errno st) (mem st) new (trace st))
    else ((EINVAL K, None), st).

(* sizeof "/proc/self/task//comm" + 3*sizeof(int), pthread_setname_np.c:15 *)
Definition sizeof_f : nat :=
  (S (String.length "/proc/self/task//comm") + 3 * 4)%nat.

(** Modelled from the spec: [snprintf] of the C library with the format
    ["/proc/self/task/%d/comm"]: the decimal [tid] between the two fixed
    parts, cut to what fits before the terminator in a buffer of [n] bytes. *)
Definition snprintf_comm (n : nat) (t : Z) : list byte :=
  take (Nat.pred n)
       (c_str "/proc/self/task/"
        ++ c_str (NilZero.string_of_int (Z.to_int t))
        ++ c_str "/comm").

Definition prctl (h : host) (opt : Z) (arg : list byte) : M Z :=
  emit (EvPrctl opt arg) ;;; syscall_ret (sys_prctl h opt arg).

Definition open (h : host) (path : list byte) (flags : Z) : M Z :=
  emit (EvOpen path flags) ;;; syscall_ret (sys_open h path flags).

Definition write (h : host) (fd : Z) (buf : list byte) (len : nat) : M Z :=
  emit (EvWrite fd (take len buf)) ;;; syscall_ret (sys_write h fd (take len buf)).

Definition close (h : host) (fd : Z) : M Z :=
  emit (EvClose fd) ;;; syscall_ret (sys_close h fd).

(** Lines 12-29: the build with [__wasilibc_unmodified_upstream].  [self] is
    what [pthread_self()] answers; [name] lists the bytes at the pointer. *)
Definition pthread_setname_np_upstream (K : constants) (h : host)
    (self : pthread_t) (thread : pthread_t) (name : list byte) : M Z :=
  let len := strnlen name 16 in
  if (15 <? len)%nat then ret (ERANGE K)
  else if pthread_eqb thread self then
    r <- prctl h (PR_SET_NAME K) name ;;
    if negb (r =? 0) then get_errno else ret 0
  else
    let f := snprintf_comm sizeof_f (tid thread) in
    cs <- pthread_setcancelstate K PTHREAD_CANCEL_DISABLE ;;
    fd <- open h f (O_WRONLY K) ;;
    status <-
      (if fd <? 0 then get_errno
       else
         w <- write h fd name len ;;
         if w <? 0 then get_errno else ret 0) ;;
    (if 0 <=? fd then close h fd ;;; ret tt else ret tt) ;;;
    match snd cs with
    | Some old => pthread_setcancelstate K old ;;; ret status
    | None => ret status
    end.

(** Lines 31-34: the WASI build. *)
Definition pthread_setname_np_wasi (thread : pthread_t) (name : list byte) : M Z :=
  ret 0.

(** The preprocessor picks one of the two definitions. *)
Definition pthread_setname_np (__wasilibc_unmodified_upstream : bool)
    (K : constants) (h : host) (self : pthread_t)
    (thread : pthread_t) (name : list byte) : M Z :=
  if __wasilibc_unmodified_upstream
  then pthread_setname_np_upstream K h self thread name
  else pthread_setname_np_wasi thread name.

(** ** [sigset_t] (select.h, lines 12-19) *)

Definition _NSIG : Z := 65.
Definition _NSIG_BPW : Z := 32.
Definition _NSIG_WORDS : Z := Z.quot _NSIG _NSIG_BPW.

(** The union has two array members over the same storage: one list of
    words, read under either name.  A word is an [unsigned long] of
    [_NSIG_BPW] bits. *)
Record sigset_t := mkSigset { words : list Z }.

Definition sig (s : sigset_t) : list Z := words s.
Definition __bits (s : sigset_t) : list Z := words s.

(** The all-zero value of the type. *)
Definition sigset_zero : sigset_t :=
  mkSigset (replicate (Z.to_nat _NSIG_WORDS) 0).

(** Number of bits the type stores. *)
Definition sigset_bits (s : sigset_t) : Z :=
  Z.of_nat (length (words s)) * _NSIG_BPW.

Definition word_index (i : N) : nat := Z.to_nat (Z.of_N i / _NSIG_BPW).
Definition bit_index (i : N) : Z := Z.of_N i mod _NSIG_BPW.

(** Modelled from the spec: "setting bit i" of a signal set; the routine
    doing it is not among the verified sources.  Bit [i] lives in word
    [i / _NSIG_BPW] at position [i mod _NSIG_BPW]; an index past the last
    word of the array has no storage, and the access is undefined ([None]). *)
Definition sigset_set (s : sigset_t) (i : N) : option sigset_t :=
  match words s !! word_index i with
  | Some w =>
      Some (mkSigset (<[word_index i := Z.lor w (Z.shiftl 1 (bit_index i))]> (words s)))
  | None => None
  end.

(** Modelled from the spec: "testing bit i" of a signal set, with the same
    layout. *)
Definition sigset_test (s : sigset_t) (i : N) : option bool :=
  match words s !! word_index i with
  | Some w => Some (Z.testbit w (bit_index i))
  | None => None
  end.

(** ** [pselect] (select.h, line 21) *)

(** Only the prototype of [pselect] is part of the verified sources.  The
    definitions of this section follow the specification's description of
    the call (readiness multiplexer, section 4.1; its result, section 6;
    its failures, section 7). *)

Abbreviation fd_set := (gset Z).

(** The six arguments; a null pointer is [None]. *)
Record pselect_args := mkArgs {
  nfds : Z;
  readfds : option fd_set;
  writefds : option fd_set;
  exceptfds : option fd_set;
  timeout : option Z;
  sigmask : option sigset_t
}.

(** What the host reports at the end of a wait: the descriptors that are
    ready, the expiry of the timeout, or the failure of its call with an
    error code. *)
Inductive wakeup :=
| Ready (r w e : fd_set)
| TimedOut
| WaitFailed (code : Z).

(** Where the caller is.  It returns with a result and, on failure, the
    error code "set on an error channel". *)
Inductive phase :=
| Entered
| Waiting (saved : sigset_t)
| Returned (n : Z) (err : option Z).

Record pstate := mkP {
  active_mask : sigset_t;
  ph : phase;
  rd : option fd_set;
  wr : option fd_set;
  ex : option fd_set
}.

(** The ready members of a watched set; a null set watches nothing. *)
Definition ready_subset (nfds : Z) (s : option fd_set) (r : fd_set) : option fd_set :=
  match s with
  | Some x => Some (filter (fun d => d < nfds) x ∩ r)
  | None => None
  end.

Definition count (s : option fd_set) : Z :=
  match s with
  | Some x => Z.of_nat (size x)
  | None => 0
  end.

(** Modelled from the spec: the step that begins the wait.  "The signal mask
    must be installed as part of the same atomic step that begins waiting";
    "a null signal-mask pointer means do not alter the active mask". *)
Definition begin_wait (a : pselect_args) (s : pstate) : pstate :=
  mkP (match sigmask a with Some m => m | None => active_mask s end)
      (Waiting (active_mask s)) (rd s) (wr s) (ex s).

(** Modelled from the spec: the step that ends the wait, "the previously
    active mask restored as part of the same atomic step that ends waiting".
    The caller stays blocked ([None]) while no watched descriptor is ready,
    and for ever on a timeout when the timeout pointer is null ("block
    indefinitely").  "On return, each passed-in set is mutated to contain
    only the ready descriptors from its original membership", and the result
    is "the count of ready descriptors across all sets, or a negative result
    paired with an error code": when the host call fails, the wait ends
    with [-1] and the code of the failure ("host capability-call failures
    are mapped one-to-one" onto error codes), and the sets, about which the
    host reported nothing, stay as they were passed. *)
Definition end_wait (a : pselect_args) (w : wakeup) (saved : sigset_t)
    (s : pstate) : option pstate :=
  match w with
  | Ready r w e =>
      let rd' := ready_subset (nfds a) (rd s) r in
      let wr' := ready_subset (nfds a) (wr s) w in
      let ex' := ready_subset (nfds a) (ex s) e in
      let n := count rd' + count wr' + count ex' in
      if n =? 0 then None else Some (mkP saved (Returned n None) rd' wr' ex')
  | TimedOut =>
      match timeout a with
      | Some _ =>
          Some (mkP saved (Returned 0 None)
                    (ready_subset (nfds a) (rd s) ∅)
                    (ready_subset (nfds a) (wr s) ∅)
                    (ready_subset (nfds a) (ex s) ∅))
      | None => None
      end
  | WaitFailed code =>
      Some (mkP saved (Returned (-1) (Some code)) (rd s) (wr s) (ex s))
  end.

(** Modelled from the spec: one atomic step of a [pselect] call. *)
Definition pselect_step (a : pselect_args) (w : wakeup) (s : pstate) : option pstate :=
  match ph s with
  | Entered => Some (begin_wait a s)
  | Waiting saved => end_wait a w saved s
  | Returned _ _ => None
  end.

Fixpoint pselect_steps (a : pselect_args) (w : wakeup) (n : nat) (s : pstate)
    : option pstate :=
  match n with
  | O => Some s
  | S k =>
      match pselect_step a w s with
      | Some s' => pselect_steps a w k s'
      | None => None
      end
  end.

(** The state in which the call is entered, [m0] being the active mask. *)
Definition pselect_enter (a : pselect_args) (m0 : sigset_t) : pstate :=
  mkP m0 Entered (readfds a) (writefds a) (exceptfds a).

(** Modelled from the spec: the whole call, from the caller's side: its
    result ("ready count (>= 0) or -1 with an error code set"), the error
    code if any, the three sets and the mask active afterwards; [None] when
    the caller never resumes. *)
Definition pselect (a : pselect_args) (w : wakeup) (m0 : sigset_t)
    : option (Z * option Z
              * (option fd_set * option fd_set * option fd_set) * sigset_t) :=
  match pselect_steps a w 2 (pselect_enter a m0) with
  | Some s =>
      match ph s with
      | Returned n err => Some (n, err, (rd s, wr s, ex s), active_mask s)
      | _ => None
      end
  | None => None
  end.

(** Whether the host's report ends the wait of a call. *)
Definition wakes (a : pselect_args) (w : wakeup) : bool :=
  match w with
  | Ready r w e =>
      negb (count (ready_subset (nfds a) (readfds a) r)
            + count (ready_subset (nfds a) (writefds a) w)
            + count (ready_subset (nfds a) (exceptfds a) e) =? 0)
  | TimedOut => match timeout a with Some _ => true | None => false end
  | WaitFailed _ => true
  end.

(** ** [ttyname_r] (ttyname_r.c, lines 70-89, the upstream branch) *)

Inductive stat_answer :=
| StatDone (st_dev st_ino : Z)
| StatFailed (e : Z).

(** What the POSIX host answers to the four calls of the upstream branch:
    [isatty] (its result, and the error number it leaves in [errno] if any),
    [readlink] (the contents of the link, or an error number), [stat] and
    [fstat]. *)
Record posix_host := mkPosix {
  tty_check : Z -> Z * option Z;
  link_target : list byte -> list byte + Z;
  path_stat : list byte -> stat_answer;
  fd_stat : Z -> stat_answer
}.

Definition isatty (ph : posix_host) (fd : Z) : M Z :=
  match snd (tty_check ph fd) with
  | Some e => set_errno e ;;; ret (fst (tty_check ph fd))
  | None => ret (fst (tty_check ph fd))
  end.

Fixpoint store_bytes (d : N) (bs : list byte) : M unit :=
  match bs with
  | [] => ret tt
  | b :: bs' => store d b ;;; store_bytes (N.succ d) bs'
  end.

(** Modelled from the spec: [readlink] of the C library, which the
    "traditional design" of section 4.2 uses to obtain the path; its file is
    not among the verified sources.  Following POSIX, the contents of the
    link are stored at [buf], cut to [bufsize] bytes and without a
    terminator, and the number of bytes stored is returned; on failure the
    result is [-1] with [errno] set. *)
Definition readlink (ph : posix_host) (path : list byte) (buf : N) (bufsize : N)
    : M Z :=
  match link_target ph path with
  | inl target =>
      store_bytes buf (take (N.to_nat bufsize) target) ;;;
      ret (Z.of_nat (length (take (N.to_nat bufsize) target)))
  | inr e => set_errno e ;;; ret (-1)
  end.

(** Modelled from the spec: [__procfdname] of the C library (not among the
    verified sources): the fixed prefix followed by the descriptor, taken as
    an [unsigned], in decimal. *)
Definition __procfdname (fd : Z) : list byte :=
  c_str "/proc/self/fd/"
  ++ c_str (NilZero.string_of_uint (N.to_uint (Z.to_N (fd mod 2 ^ 32)))).

(** The characters of the C string at [p], reading at most [fuel] bytes. *)
Fixpoint cstr_at (m : N -> byte) (p : N) (fuel : nat) : list byte :=
  match fuel with
  | O => []
  | S k => if is_nul (m p) then [] else m p :: cstr_at m (N.succ p) k
  end.

(** [stat] and [fstat]: the result, and the device and inode numbers they
    leave in the [struct stat]. *)
Definition stat_ret (a : stat_answer) : M (Z * (Z * Z)) :=
  match a with
  | StatDone d i => ret (0, (d, i))
  | StatFailed e => set_errno e ;;; ret (-1, (0, 0))
  end.

Definition stat (ph : posix_host) (p : N) (fuel : nat) : M (Z * (Z * Z)) :=
  fun st => stat_ret (path_stat ph (cstr_at (mem st) p fuel)) st.

Definition fstat (ph : posix_host) (fd : Z) : M (Z * (Z * Z)) :=
  stat_ret (fd_stat ph fd).

(** Lines 70-89.  [l] is not negative where it is compared with [size], so
    the comparison of the two C types is the comparison of the numbers.
    [ENODEV] is a further constant of [errno.h]. *)
Definition ttyname_r_upstream (K : constants) (ENODEV : Z) (ph : posix_host)
    (fd : Z) (name : N) (size : N) : M Z :=
  t <- isatty ph fd ;;
  if t =? 0 then get_errno
  else
    let procname := __procfdname fd in
    l <- readlink ph procname name size ;;
    if l <? 0 then get_errno
    else if l =? Z.of_N size then ret (ERANGE K)
    else
      store (name + Z.to_N l) x00 ;;;
      s1 <- stat ph name (S (Z.to_nat l)) ;;
      if negb (fst s1 =? 0) then get_errno
      else
        s2 <- fstat ph fd ;;
        if negb (fst s2 =? 0) then get_errno
        else if negb (fst (snd s1) =? fst (snd s2))
                || negb (snd (snd s1) =? snd (snd s2))
        then ret ENODEV
        else ret 0.

(** ** Auxiliary definitions for the statements *)

(** The [n] bytes [strncpy] stores. *)
Fixpoint strncpy_bytes (s : list byte) (n : nat) : list byte :=
  match n with
  | O => []
  | S n' =>
      match s with
      | [] => x00 :: strncpy_bytes [] n'
      | c :: s' => c :: strncpy_bytes (if is_nul c then [] else s') n'
      end
  end.

(** Stores of consecutive bytes from [d] on. *)
Fixpoint stores_from (d : N) (bs : list byte) : list event :=
  match bs with
  | [] => []
  | b :: bs' => EvStore d b :: stores_from (N.succ d) bs'
  end.

(** The state right after the terminal query. *)
Definition queried (st : state) : state :=
  mkState (errno st) (mem st) (canceldisable st) (trace st ++ [EvTtyGet]).

(** The path the three tests of lines 97-108 select, if any. *)
Definition tty_path (tty : __wasi_tty_t) (fd : Z) : option (list byte) :=
  if (fd =? 0) && (stdin_tty tty =? __WASI_BOOL_TRUE) then Some (c_str "/dev/stdin")
  else if (fd =? 1) && (stdout_tty tty =? __WASI_BOOL_TRUE) then Some (c_str "/dev/stdout")
  else if (fd =? 2) && (stderr_tty tty =? __WASI_BOOL_TRUE) then Some (c_str "/dev/stderr")
  else None.

(** The state after more events. *)
Definition after (st : state) (evs : list event) : state :=
  mkState (errno st) (mem st) (canceldisable st) (trace st ++ evs).

(** Sample constants and hosts, used to run the functions. *)
Definition wasi_constants : constants := mkConstants 59 68 28 15 1.
Definition linux_constants : constants := mkConstants 25 34 22 15 1.

Definition host_of (q : Z * __wasi_tty_t) : host :=
  mkHost q (fun _ _ => Done 0) (fun _ _ => Done 3)
         (fun _ bs => Done (Z.of_nat (length bs))) (fun _ => Done 0).

Definition tty_all : __wasi_tty_t := mkTty 80 24 640 480 1 1 1 1 1.
Definition tty_none : __wasi_tty_t := mkTty 80 24 640 480 0 0 0 0 0.

(** A state whose memory holds the letter X everywhere. *)
Definition st0 : state := mkState 0 (fun _ => "X"%byte) 0 [].

Definition a_host : host := host_of (0, tty_all).
Definition self0 : pthread_t := mkThread 4096 100.
Definition other0 : pthread_t := mkThread 8192 101.

(** A call watching descriptor 3 for reading with no timeout, under a mask
    that blocks signal 2; descriptor 3 is ready at once. *)
Definition mask_2 : sigset_t := mkSigset [4; 0].

Definition args0 : pselect_args :=
  mkArgs 4 (Some {[3]}) None None None (Some mask_2).

Definition wake0 : wakeup := Ready {[3]} ∅ ∅.

Definition prctl_refused : host :=
  mkHost (0, tty_all) (fun _ _ => Failed 1) (fun _ _ => Done 3)
         (fun _ bs => Done (Z.of_nat (length bs))) (fun _ => Done 0).

Definition open_refused : host :=
  mkHost (0, tty_all) (fun _ _ => Done 0) (fun _ _ => Failed 2)
         (fun _ bs => Done (Z.of_nat (length bs))) (fun _ => Done 0).

Definition write_and_close_refused : host :=
  mkHost (0, tty_all) (fun _ _ => Done 0) (fun _ _ => Done 3)
         (fun _ _ => Failed 5) (fun _ => Failed 9).

(** Sample POSIX hosts: descriptors below 3 are terminals behind the link
    [/dev/pts/0]. *)
Definition pts_host (ino : Z) : posix_host :=
  mkPosix (fun fd => if fd <? 3 then (1, None) else (0, Some 25))
          (fun _ => inl (c_str "/dev/pts/0"))
          (fun _ => StatDone 5 7)
          (fun _ => StatDone 5 ino).

Definition no_link_host : posix_host :=
  mkPosix (fun _ => (1, None)) (fun _ => inr 2)
          (fun _ => StatDone 5 7) (fun _ => StatDone 5 7).

(** What the upstream branch stores, as decided by the first two calls. *)
Definition upstream_stores (ph : posix_host) (fd : Z) (name size : N)
    : list event :=
  if fst (tty_check ph fd) =? 0 then []
  else match link_target ph (__procfdname fd) with
       | inl target =>
           let got := take (N.to_nat size) target in
           stores_from name got
           ++ (if Z.of_nat (length got) =? Z.of_N size then []
               else [EvStore (name + N.of_nat (length got)) x00])
       | inr _ => []
       end.

(** The checks that follow the copy, as a function of the two answers. *)
Definition identity_check (ENODEV : Z) (a1 a2 : stat_answer) : Z :=
  match a1 with
  | StatFailed e => e
  | StatDone d1 i1 =>
      match a2 with
      | StatFailed e => e
      | StatDone d2 i2 =>
          if negb (d1 =? d2) || negb (i1 =? i2) then ENODEV else 0
      end
  end.

(** * Properties *)

(** ** The copy loop *)

Lemma strncpy_bytes_length s n : length (strncpy_bytes s n) = n.
Proof.
  revert s; induction n as [|n IH]; intros s; simpl; [reflexivity|].
  destruct s; simpl; now rewrite IH.
Qed.

Lemma stores_from_length d bs : length (stores_from d bs) = length bs.
Proof. revert d; induction bs as [|b bs IH]; intros d; simpl; [|rewrite IH]; reflexivity. Qed.

Lemma stores_from_all_stores d bs : stores_of (stores_from d bs) = stores_from d bs.
Proof.
  revert d; induction bs as [|b bs IH]; intros d; simpl; [reflexivity|].
  unfold stores_of in *. simpl. now rewrite IH.
Qed.

Lemma stores_from_no_host_call d bs : host_calls_of (stores_from d bs) = [].
Proof.
  revert d; induction bs as [|b bs IH]; intros d; simpl; [reflexivity|].
  unfold host_calls_of in *. simpl. apply IH.
Qed.

Lemma stores_from_range d bs a b :
  In (EvStore a b) (stores_from d bs) -> (d <= a < d + N.of_nat (length bs))%N.
Proof.
  revert d; induction bs as [|c bs IH]; intros d; simpl; [tauto|].
  intros [E|HIn].
  - injection E as -> ->. lia.
  - apply IH in HIn. lia.
Qed.

Lemma strncpy_loop_errno d s n st :
  errno (snd (strncpy_loop d s n st)) = errno st.
Proof.
  revert d s st; induction n as [|n IH]; intros d s st; simpl; [reflexivity|].
  destruct s; unfold bind; simpl; now rewrite IH.
Qed.

Lemma strncpy_loop_trace d s n st :
  trace (snd (strncpy_loop d s n st))
  = trace st ++ stores_from d (strncpy_bytes s n).
Proof.
  revert d s st; induction n as [|n IH]; intros d s st; simpl.
  - now rewrite app_nil_r.
  - destruct s; unfold bind; simpl; rewrite IH; simpl;
      now rewrite <- app_assoc.
Qed.

Lemma strncpy_loop_mem_outside d s n st a :
  ~ (d <= a < d + N.of_nat n)%N ->
  mem (snd (strncpy_loop d s n st)) a = mem st a.
Proof.
  revert d s st; induction n as [|n IH]; intros d s st Hout; simpl; [reflexivity|].
  destruct s; unfold bind; simpl; rewrite IH by lia; simpl;
    destruct (N.eqb_spec a d); try reflexivity; lia.
Qed.

Lemma strncpy_loop_mem_inside d s n st i :
  (i < n)%nat ->
  mem (snd (strncpy_loop d s n st)) (d + N.of_nat i)
  = nth i (strncpy_bytes s n) x00.
Proof.
  revert d s st i; induction n as [|n IH]; intros d s st i Hi; [lia|].
  destruct i as [|i].
  - replace (d + N.of_nat 0)%N with d by lia.
    simpl. destruct s; unfold bind; simpl;
      (rewrite strncpy_loop_mem_outside by lia); simpl;
      now rewrite N.eqb_refl.
  - replace (d + N.of_nat (S i))%N with (N.succ d + N.of_nat i)%N by lia.
    simpl. destruct s; unfold bind; simpl; apply IH; lia.
Qed.

(** ** [ttyname_r] *)

Lemma ttyname_r_query_failed K h fd name size st :
  fst (tty_get h) <> 0 ->
  ttyname_r K h fd name size st
  = (0, mkState (fst (tty_get h)) (mem st) (canceldisable st)
                (trace st ++ [EvTtyGet])).
Proof.
  intros Hr. unfold ttyname_r, __wasi_tty_get, bind, emit, ret; simpl.
  destruct (Z.eqb_spec (fst (tty_get h)) 0) as [E|_]; [contradiction|].
  reflexivity.
Qed.

Lemma strncpy_then_zero d s n st :
  (let '(_, st') := strncpy d s n st in (0, st'))
  = (0, snd (strncpy_loop d s (N.to_nat n) st)).
Proof.
  unfold strncpy, bind, ret.
  destruct (strncpy_loop d s (N.to_nat n) st) as [[] st']; reflexivity.
Qed.

Lemma ttyname_r_query_ok K h fd name size st :
  fst (tty_get h) = 0 ->
  ttyname_r K h fd name size st
  = match tty_path (snd (tty_get h)) fd with
    | Some p => (0, snd (strncpy_loop name p (N.to_nat size) (queried st)))
    | None => (ENOTTY K, queried st)
    end.
Proof.
  intros Hr. unfold ttyname_r, __wasi_tty_get, tty_path, bind, emit, ret; simpl.
  rewrite Hr; simpl. fold (queried st).
  destruct ((fd =? 0) && (stdin_tty (snd (tty_get h)) =? __WASI_BOOL_TRUE));
    [apply strncpy_then_zero|].
  destruct ((fd =? 1) && (stdout_tty (snd (tty_get h)) =? __WASI_BOOL_TRUE));
    [apply strncpy_then_zero|].
  destruct ((fd =? 2) && (stderr_tty (snd (tty_get h)) =? __WASI_BOOL_TRUE));
    [apply strncpy_then_zero|].
  reflexivity.
Qed.

Lemma tty_path_no_nul tty fd p :
  tty_path tty fd = Some p -> forallb (fun b => negb (is_nul b)) p = true.
Proof.
  unfold tty_path.
  repeat match goal with
         | |- context [if ?b then _ else _] => destruct b
         end; intros E; inversion E; reflexivity.
Qed.

(** X1: every call of [ttyname_r], whatever its arguments and the host's
    answer, makes exactly one host call, the terminal query. *)
Lemma ttyname_r_one_query K h fd name size st :
  host_calls_of (trace (snd (ttyname_r K h fd name size st)))
  = host_calls_of (trace st) ++ [EvTtyGet].
Proof.
  destruct (Z.eq_dec (fst (tty_get h)) 0) as [Hr|Hr].
  - rewrite (ttyname_r_query_ok K h fd name size st Hr).
    destruct (tty_path (snd (tty_get h)) fd) as [p|]; simpl.
    + rewrite strncpy_loop_trace. unfold host_calls_of at 1.
      rewrite List.filter_app.
      fold (host_calls_of (stores_from name (strncpy_bytes p (N.to_nat size)))).
      rewrite stores_from_no_host_call, app_nil_r. simpl.
      unfold host_calls_of. now rewrite List.filter_app.
    + unfold host_calls_of. now rewrite List.filter_app.
  - rewrite (ttyname_r_query_failed K h fd name size st Hr); simpl.
    unfold host_calls_of. now rewrite List.filter_app.
Qed.

(** X6: [ttyname_r] leaves [errno] alone when the query succeeds, on the
    paths that copy a name and on the one that returns [ENOTTY]. *)
Lemma ttyname_r_errno_kept K h fd name size st :
  fst (tty_get h) = 0 ->
  errno (snd (ttyname_r K h fd name size st)) = errno st.
Proof.
  intros Hr. rewrite (ttyname_r_query_ok K h fd name size st Hr).
  destruct (tty_path (snd (tty_get h)) fd); simpl; [|reflexivity].
  now rewrite strncpy_loop_errno.
Qed.

(** C10: when the terminal query [__wasi_tty_get] answers a nonzero code
    [r], [ttyname_r] returns 0, [errno] holds [r] afterwards, and the
    caller's buffer is not modified: memory is the same and the only event
    of the call is the query, so no store took place. *)
Theorem ttyname_r_query_failure_sets_errno_returns_zero
    K h fd name size st :
  fst (tty_get h) <> 0 ->
  fst (ttyname_r K h fd name size st) = 0
  /\ errno (snd (ttyname_r K h fd name size st)) = fst (tty_get h)
  /\ mem (snd (ttyname_r K h fd name size st)) = mem st
  /\ trace (snd (ttyname_r K h fd name size st)) = trace st ++ [EvTtyGet].
Proof.
  intros Hr. rewrite (ttyname_r_query_failed K h fd name size st Hr).
  simpl. repeat split; reflexivity.
Qed.

Lemma ttyname_r_query_failure_sets_errno_returns_zero_witness :
  fst (ttyname_r wasi_constants (host_of (8, tty_all)) 0 1024 64 st0) = 0
  /\ errno (snd (ttyname_r wasi_constants (host_of (8, tty_all)) 0 1024 64 st0)) = 8
  /\ mem (snd (ttyname_r wasi_constants (host_of (8, tty_all)) 0 1024 64 st0)) = mem st0
  /\ trace (snd (ttyname_r wasi_constants (host_of (8, tty_all)) 0 1024 64 st0))
     = trace st0 ++ [EvTtyGet].
Proof.
  apply (ttyname_r_query_failure_sets_errno_returns_zero
           wasi_constants (host_of (8, tty_all)) 0 1024%N 64%N st0).
  simpl. discriminate.
Defined.

(** C1, at the input where the code departs from it: descriptor 0, capacity
    64, the terminal query failing with code 8.  The call returns 0, the
    value of success, and only [errno] carries the code. *)
Theorem ttyname_r_query_failure_is_reported_as_success :
  ttyname_r wasi_constants (host_of (8, tty_all)) 0 1024 64 st0
  = (0, mkState 8 (mem st0) 0 [EvTtyGet]).
Proof. reflexivity. Qed.

(** C6: whatever the descriptor, the capacity and the host's answer,
    [ttyname_r] stores at most [size] bytes, every one of them at an address
    of the buffer [name .. name + size - 1]; memory outside the buffer is
    unchanged. *)
Theorem ttyname_r_writes_at_most_capacity K h fd name size st :
  exists evs,
    trace (snd (ttyname_r K h fd name size st)) = trace st ++ evs
    /\ (length (stores_of evs) <= N.to_nat size)%nat
    /\ (forall a b, In (EvStore a b) evs -> (name <= a < name + size)%N)
    /\ (forall a, ~ (name <= a < name + size)%N ->
                  mem (snd (ttyname_r K h fd name size st)) a = mem st a).
Proof.
  destruct (Z.eq_dec (fst (tty_get h)) 0) as [Hr|Hr].
  - rewrite (ttyname_r_query_ok K h fd name size st Hr).
    destruct (tty_path (snd (tty_get h)) fd) as [p|]; simpl.
    + exists (EvTtyGet :: stores_from name (strncpy_bytes p (N.to_nat size))).
      rewrite strncpy_loop_trace; simpl. rewrite <- app_assoc; simpl.
      split; [reflexivity|]. split; [|split].
      * unfold stores_of; simpl. fold (stores_of (stores_from name (strncpy_bytes p (N.to_nat size)))).
        rewrite stores_from_all_stores, stores_from_length, strncpy_bytes_length.
        lia.
      * intros a b [E|HIn]; [discriminate E|].
        apply stores_from_range in HIn.
        rewrite strncpy_bytes_length in HIn. lia.
      * intros a Ha. rewrite strncpy_loop_mem_outside by lia. reflexivity.
    + exists [EvTtyGet]. split; [reflexivity|]. split; [simpl; lia|].
      split; [|reflexivity].
      intros a b [E|[]]; discriminate E.
  - rewrite (ttyname_r_query_failed K h fd name size st Hr); simpl.
    exists [EvTtyGet]. split; [reflexivity|]. split; [simpl; lia|].
    split; [|reflexivity].
    intros a b [E|[]]; discriminate E.
Qed.

(** C7: when the terminal query succeeds, [ttyname_r] returns [ENOTTY] for a
    descriptor other than 0, 1 and 2 whatever the flags say, and for
    descriptor 0, 1 or 2 when the flag of that stream is false.  Nothing is
    stored in that case. *)
Theorem ttyname_r_not_a_terminal K h fd name size st :
  fst (tty_get h) = 0 ->
  (fd <> 0 /\ fd <> 1 /\ fd <> 2)
  \/ (fd = 0 /\ stdin_tty (snd (tty_get h)) = __WASI_BOOL_FALSE)
  \/ (fd = 1 /\ stdout_tty (snd (tty_get h)) = __WASI_BOOL_FALSE)
  \/ (fd = 2 /\ stderr_tty (snd (tty_get h)) = __WASI_BOOL_FALSE) ->
  ttyname_r K h fd name size st = (ENOTTY K, queried st).
Proof.
  intros Hr Hfd. rewrite (ttyname_r_query_ok K h fd name size st Hr).
  assert (tty_path (snd (tty_get h)) fd = None) as ->; [|reflexivity].
  unfold tty_path.
  destruct Hfd as [(H0 & H1 & H2)|[[-> Hf]|[[-> Hf]|[-> Hf]]]].
  - apply Z.eqb_neq in H0, H1, H2. rewrite H0, H1, H2. reflexivity.
  - rewrite Hf. reflexivity.
  - rewrite Hf. reflexivity.
  - rewrite Hf. reflexivity.
Qed.

Lemma ttyname_r_not_a_terminal_witness :
  ttyname_r wasi_constants (host_of (0, tty_all)) 3 1024 64 st0
  = (59, queried st0)
  /\ ttyname_r wasi_constants (host_of (0, tty_none)) 1 1024 64 st0
     = (59, queried st0).
Proof.
  split.
  - apply (ttyname_r_not_a_terminal
             wasi_constants (host_of (0, tty_all)) 3 1024%N 64%N st0).
    + reflexivity.
    + left. repeat split; discriminate.
  - apply (ttyname_r_not_a_terminal
             wasi_constants (host_of (0, tty_none)) 1 1024%N 64%N st0).
    + reflexivity.
    + right; right; left. split; reflexivity.
Defined.

(** With no NUL inside [s], the bytes stored are [s], cut at [n] or padded
    with NULs up to [n]. *)
Lemma strncpy_bytes_no_nul s n :
  forallb (fun b => negb (is_nul b)) s = true ->
  strncpy_bytes s n = take n s ++ replicate (n - length s) x00.
Proof.
  revert s; induction n as [|n IH]; intros s Hs; [now destruct s|].
  destruct s as [|c s]; simpl.
  - rewrite (IH [] eq_refl). simpl.
    rewrite firstn_nil, Nat.sub_0_r. reflexivity.
  - simpl in Hs. apply andb_true_iff in Hs as [Hc Hs].
    apply negb_true_iff in Hc. rewrite Hc. now rewrite (IH s Hs).
Qed.

Lemma read_cstr_found m d bs cap :
  (forall i, (i < length bs)%nat -> m (d + N.of_nat i)%N = nth i bs x00) ->
  forallb (fun b => negb (is_nul b)) bs = true ->
  m (d + N.of_nat (length bs))%N = x00 ->
  (length bs < cap)%nat ->
  read_cstr m d cap = Some bs.
Proof.
  revert d cap; induction bs as [|b bs IH]; intros d cap Hbs Hnn Hz Hcap;
    (destruct cap as [|cap]; [simpl in Hcap; lia|]); simpl in Hcap; simpl.
  - assert (H0 : m d = x00) by (rewrite <- Hz; f_equal; simpl; lia).
    now rewrite H0.
  - simpl in Hnn. apply andb_true_iff in Hnn as [Hb Hnn].
    assert (H0 : m d = b).
    { rewrite <- (N.add_0_r d). apply (Hbs 0%nat). simpl; lia. }
    rewrite H0.
    apply negb_true_iff in Hb. rewrite Hb.
    rewrite (IH (N.succ d) cap); [reflexivity| |assumption| |lia].
    + intros i Hi. specialize (Hbs (S i) ltac:(simpl; lia)).
      change (nth (S i) (b :: bs) x00) with (nth i bs x00) in Hbs.
      rewrite <- Hbs. f_equal. lia.
    + rewrite <- Hz. f_equal. simpl length. lia.
Qed.

(** When the query succeeds, the descriptor is a terminal and the path with
    its terminator fits, the buffer holds the NUL-terminated path. *)
Lemma ttyname_r_path_fits K h fd name size st p :
  fst (tty_get h) = 0 ->
  tty_path (snd (tty_get h)) fd = Some p ->
  (length p < N.to_nat size)%nat ->
  fst (ttyname_r K h fd name size st) = 0
  /\ read_cstr (mem (snd (ttyname_r K h fd name size st))) name (N.to_nat size)
     = Some p.
Proof.
  intros Hr Hp Hlen. rewrite (ttyname_r_query_ok K h fd name size st Hr), Hp.
  simpl. split; [reflexivity|].
  pose proof (tty_path_no_nul _ _ _ Hp) as Hnn.
  apply read_cstr_found; try assumption.
  - intros i Hi. rewrite strncpy_loop_mem_inside by lia.
    rewrite (strncpy_bytes_no_nul _ _ Hnn).
    rewrite app_nth1 by (rewrite length_take; lia).
    rewrite firstn_all2 by lia. reflexivity.
  - rewrite strncpy_loop_mem_inside by lia.
    rewrite (strncpy_bytes_no_nul _ _ Hnn).
    rewrite firstn_all2 by lia.
    rewrite app_nth2 by lia. rewrite Nat.sub_diag.
    destruct (N.to_nat size - length p)%nat eqn:E; [lia|reflexivity].
Qed.

(** The instance the specification gives: descriptor 0 with capacity 11. *)
Example ttyname_r_stdin_11 :
  fst (ttyname_r wasi_constants (host_of (0, tty_all)) 0 1024 11 st0) = 0
  /\ read_cstr (mem (snd (ttyname_r wasi_constants (host_of (0, tty_all)) 0 1024 11 st0)))
               1024 11
     = Some (c_str "/dev/stdin").
Proof. split; reflexivity. Qed.

(** C4, at an input where the code departs from it: descriptor 0, the host
    reporting every stream a terminal, capacity 5.  The call returns 0, the
    five bytes of the buffer are [/dev/] and none of them is NUL: the buffer
    holds no terminated string. *)
Theorem ttyname_r_success_without_terminator :
  fst (ttyname_r wasi_constants (host_of (0, tty_all)) 0 1024 5 st0) = 0
  /\ map (mem (snd (ttyname_r wasi_constants (host_of (0, tty_all)) 0 1024 5 st0)))
         [1024; 1025; 1026; 1027; 1028]%N
     = c_str "/dev/"
  /\ read_cstr (mem (snd (ttyname_r wasi_constants (host_of (0, tty_all)) 0 1024 5 st0)))
               1024 5
     = None.
Proof. repeat split; reflexivity. Qed.

(** With capacity 0 the call stores nothing, whatever the descriptor and the
    host's answer. *)
Lemma ttyname_r_zero_capacity_no_store K h fd name st :
  mem (snd (ttyname_r K h fd name 0 st)) = mem st
  /\ stores_of (trace (snd (ttyname_r K h fd name 0 st))) = stores_of (trace st).
Proof.
  assert (Hq : stores_of (trace (queried st)) = stores_of (trace st)).
  { unfold stores_of, queried; simpl.
    rewrite List.filter_app; simpl. apply app_nil_r. }
  destruct (Z.eq_dec (fst (tty_get h)) 0) as [Hr|Hr].
  - rewrite (ttyname_r_query_ok K h fd name 0 st Hr).
    destruct (tty_path (snd (tty_get h)) fd); simpl; split;
      solve [reflexivity | exact Hq].
  - rewrite (ttyname_r_query_failed K h fd name 0 st Hr); simpl.
    split; [reflexivity|exact Hq].
Qed.

(** C5, at the input where the code departs from it: descriptor 1, capacity
    0, the host reporting stdout a terminal.  Nothing is stored, but the call
    returns 0 and so does not fail. *)
Theorem ttyname_r_zero_capacity_reports_success :
  ttyname_r wasi_constants (host_of (0, tty_all)) 1 1024 0 st0
  = (0, queried st0).
Proof. reflexivity. Qed.

(** ** [pthread_setname_np] *)

Lemma strnlen_min s n : strnlen s n = Nat.min n (strlen s).
Proof.
  unfold strlen. revert n; induction s as [|c s IH]; intros n.
  - destruct n; reflexivity.
  - destruct n as [|n]; [reflexivity|]. simpl.
    destruct (is_nul c); [reflexivity|]. now rewrite IH.
Qed.

Lemma strnlen_16_overlong s : (15 < strlen s)%nat -> (15 <? strnlen s 16)%nat = true.
Proof. intros H. rewrite strnlen_min. apply Nat.ltb_lt. lia. Qed.

Lemma strnlen_16_within s :
  (strlen s <= 15)%nat ->
  (15 <? strnlen s 16)%nat = false /\ strnlen s 16 = strlen s.
Proof. intros H. rewrite strnlen_min. split; [apply Nat.ltb_ge|]; lia. Qed.

(** C8: in the WASI build [pthread_setname_np] returns 0 for every thread
    and every name, of any length, and leaves the state as it was: it calls
    nothing and stores nothing. *)
Theorem pthread_setname_np_wasi_is_a_no_op K h self thread name st :
  pthread_setname_np false K h self thread name st = (0, st).
Proof. reflexivity. Qed.

Example pthread_setname_np_wasi_overlong :
  pthread_setname_np false wasi_constants (host_of (0, tty_all))
    (mkThread 4096 1) (mkThread 8192 2)
    (c_str "a-name-that-is-definitely-too-long") st0
  = (0, st0)
  /\ strlen (c_str "a-name-that-is-definitely-too-long") = 34%nat.
Proof. split; reflexivity. Qed.

(** C9: in the upstream build, (1) a name longer than 15 characters makes
    [pthread_setname_np] return [ERANGE] with no call made and the state
    untouched; a name within the bound is passed on: (2) for the calling
    thread through [prctl (PR_SET_NAME, name)], and the result is 0 when
    that call succeeds; (3) for another thread by opening its [comm] file
    and writing the name into it, and the result is 0 when both calls
    succeed. *)
Theorem pthread_setname_np_upstream_checks_length_then_names
    K h self thread name st :
  ((15 < strlen name)%nat ->
   pthread_setname_np true K h self thread name st = (ERANGE K, st))
  /\ ((strlen name <= 15)%nat ->
      pthread_eqb thread self = true ->
      sys_prctl h (PR_SET_NAME K) name = Done 0 ->
      pthread_setname_np true K h self thread name st
      = (0, after st [EvPrctl (PR_SET_NAME K) name]))
  /\ (forall fd n,
      (strlen name <= 15)%nat ->
      pthread_eqb thread self = false ->
      sys_open h (snprintf_comm sizeof_f (tid thread)) (O_WRONLY K) = Done fd ->
      0 <= fd ->
      sys_write h fd (take (strlen name) name) = Done n ->
      0 <= n ->
      fst (pthread_setname_np true K h self thread name st) = 0
      /\ trace (snd (pthread_setname_np true K h self thread name st))
         = trace st
           ++ [EvOpen (snprintf_comm sizeof_f (tid thread)) (O_WRONLY K);
               EvWrite fd (take (strlen name) name);
               EvClose fd]).
Proof.
  split; [|split].
  - intros Hlong. simpl. unfold pthread_setname_np_upstream.
    rewrite (strnlen_16_overlong name Hlong). reflexivity.
  - intros Hlen Hself Hprctl. simpl. unfold pthread_setname_np_upstream.
    destruct (strnlen_16_within name Hlen) as [-> _].
    rewrite Hself. unfold prctl, bind, emit, syscall_ret, ret.
    rewrite Hprctl. reflexivity.
  - intros fd n Hlen Hother Hopen Hfd Hwrite Hn. simpl.
    unfold pthread_setname_np_upstream.
    destruct (strnlen_16_within name Hlen) as [-> ->].
    rewrite Hother.
    unfold bind, pthread_setcancelstate, PTHREAD_CANCEL_DISABLE,
      open, write, close, emit, syscall_ret, get_errno, set_errno, ret,
      bind; simpl.
    rewrite Hopen.
    destruct (Z.ltb_spec fd 0) as [?|_]; [lia|].
    rewrite Hwrite.
    destruct (Z.ltb_spec n 0) as [?|_]; [lia|].
    destruct (Z.leb_spec 0 fd) as [_|?]; [|lia].
    destruct (sys_close h fd);
      destruct ((0 <=? canceldisable st) && (canceldisable st <=? 2));
      simpl; rewrite <- !app_assoc; split; reflexivity.
Qed.

Lemma pthread_setname_np_upstream_checks_length_then_names_witness :
  pthread_setname_np true linux_constants a_host self0 self0
    (c_str "a-name-that-is-definitely-too-long") st0
  = (34, st0)
  /\ pthread_setname_np true linux_constants a_host self0 self0
       (c_str "worker") st0
     = (0, after st0 [EvPrctl 15 (c_str "worker")])
  /\ fst (pthread_setname_np true linux_constants a_host self0 other0
            (c_str "worker") st0) = 0
  /\ trace (snd (pthread_setname_np true linux_constants a_host self0 other0
                   (c_str "worker") st0))
     = trace st0
       ++ [EvOpen (c_str "/proc/self/task/101/comm") 1;
           EvWrite 3 (c_str "worker");
           EvClose 3].
Proof.
  split; [|split].
  - apply (proj1 (pthread_setname_np_upstream_checks_length_then_names
                    linux_constants a_host self0 self0
                    (c_str "a-name-that-is-definitely-too-long") st0)).
    vm_compute. lia.
  - apply (proj1 (proj2 (pthread_setname_np_upstream_checks_length_then_names
                           linux_constants a_host self0 self0
                           (c_str "worker") st0))).
    + vm_compute. lia.
    + reflexivity.
    + reflexivity.
  - apply (proj2 (proj2 (pthread_setname_np_upstream_checks_length_then_names
                           linux_constants a_host self0 other0
                           (c_str "worker") st0)) 3 6).
    + vm_compute. lia.
    + reflexivity.
    + reflexivity.
    + lia.
    + reflexivity.
    + lia.
Defined.

(** ** [sigset_t] *)

Lemma _NSIG_WORDS_is_2 : _NSIG_WORDS = 2.
Proof. reflexivity. Qed.

Lemma bit_index_range i : 0 <= bit_index i < _NSIG_BPW.
Proof. unfold bit_index, _NSIG_BPW. apply Z.mod_pos_bound. lia. Qed.

Lemma same_word_other_bit i j :
  i <> j -> word_index i = word_index j -> bit_index i <> bit_index j.
Proof.
  unfold word_index, bit_index, _NSIG_BPW. intros Hij Hw Hb.
  pose proof (Z.div_mod (Z.of_N i) 32 ltac:(lia)) as Hi.
  pose proof (Z.div_mod (Z.of_N j) 32 ltac:(lia)) as Hj.
  assert (0 <= Z.of_N i / 32) by (apply Z.div_pos; lia).
  assert (0 <= Z.of_N j / 32) by (apply Z.div_pos; lia).
  apply Hij. lia.
Qed.

Lemma sigset_set_length s i s' :
  sigset_set s i = Some s' -> length (words s') = length (words s).
Proof.
  unfold sigset_set. destruct (words s !! word_index i); [|discriminate].
  intros E; injection E as <-. simpl. apply length_insert.
Qed.

(** Testing the bit just set gives true. *)
Lemma sigset_test_set_same s i s' :
  sigset_set s i = Some s' -> sigset_test s' i = Some true.
Proof.
  unfold sigset_set, sigset_test.
  destruct (words s !! word_index i) as [w|] eqn:Hw; [|discriminate].
  intros E; injection E as <-. simpl.
  rewrite list_lookup_insert_eq by (eapply lookup_lt_Some; exact Hw).
  f_equal. rewrite Z.lor_spec, Z.shiftl_1_l.
  rewrite Z.pow2_bits_eqb by apply bit_index_range.
  rewrite Z.eqb_refl. apply orb_true_r.
Qed.

(** Setting bit [i] does not disturb any other bit. *)
Lemma sigset_test_set_other s i j s' :
  sigset_set s i = Some s' -> i <> j -> sigset_test s' j = sigset_test s j.
Proof.
  unfold sigset_set, sigset_test.
  destruct (words s !! word_index i) as [w|] eqn:Hw; [|discriminate].
  intros E Hij; injection E as <-. simpl.
  destruct (Nat.eq_dec (word_index i) (word_index j)) as [Hsame|Hdiff].
  - rewrite <- Hsame.
    rewrite list_lookup_insert_eq by (eapply lookup_lt_Some; exact Hw).
    rewrite Hw. f_equal. rewrite Z.lor_spec, Z.shiftl_1_l.
    rewrite Z.pow2_bits_eqb by apply bit_index_range.
    pose proof (same_word_other_bit i j Hij Hsame) as Hb.
    apply Z.eqb_neq in Hb. rewrite Hb. apply orb_false_r.
  - rewrite list_lookup_insert_ne by exact Hdiff. reflexivity.
Qed.

Lemma word_index_in_range i : (i < 64)%N -> (word_index i < 2)%nat.
Proof.
  unfold word_index, _NSIG_BPW. intros Hi.
  assert (Z.of_N i / 32 < 2) by (apply Z.div_lt_upper_bound; lia).
  assert (0 <= Z.of_N i / 32) by (apply Z.div_pos; lia).
  lia.
Qed.

Lemma sigset_test_zero j : (j < 64)%N -> sigset_test sigset_zero j = Some false.
Proof.
  intros Hj. pose proof (word_index_in_range j Hj) as Hw.
  unfold sigset_test, sigset_zero. simpl.
  destruct (word_index j) as [|[|k]]; simpl;
    [rewrite Z.testbit_0_l; reflexivity .. | lia].
Qed.

(** C3 as stated fails at signal number 64: [_NSIG / _NSIG_BPW] is 2, the
    two words hold 64 bits, and bit 64 would live in a third word. *)
Lemma sigset_has_no_bit_64 :
  sigset_bits sigset_zero = 64
  /\ word_index 64 = Z.to_nat _NSIG_WORDS
  /\ ~ (forall i : N, (i < 65)%N ->
          exists s', sigset_set sigset_zero i = Some s'
                     /\ sigset_test s' i = Some true
                     /\ forall j : N, (j < 65)%N -> j <> i ->
                                      sigset_test s' j = Some false).
Proof.
  split; [reflexivity|]. split; [reflexivity|].
  intros H. destruct (H 64%N ltac:(lia)) as (s' & Hs & _).
  discriminate Hs.
Qed.

(** C3, amended: the type is two words of 32 bits under either field name,
    64 bits in all, before and after a bit is set; for every [i] below 64,
    setting bit [i] in the zero set succeeds, testing bit [i] then gives
    true, and every other bit [j] below 64 still tests false. *)
Theorem sigset_set_then_test i :
  (i < 64)%N ->
  sig sigset_zero = __bits sigset_zero
  /\ length (sig sigset_zero) = 2%nat
  /\ sigset_bits sigset_zero = 64
  /\ exists s',
       sigset_set sigset_zero i = Some s'
       /\ sigset_bits s' = 64
       /\ sigset_test s' i = Some true
       /\ forall j : N, (j < 64)%N -> j <> i -> sigset_test s' j = Some false.
Proof.
  intros Hi. split; [reflexivity|]. split; [reflexivity|]. split; [reflexivity|].
  destruct (sigset_set sigset_zero i) as [s'|] eqn:Hs.
  - exists s'. split; [reflexivity|]. split; [|split].
    + unfold sigset_bits. rewrite (sigset_set_length _ _ _ Hs). reflexivity.
    + exact (sigset_test_set_same _ _ _ Hs).
    + intros j Hj Hne.
      rewrite (sigset_test_set_other _ _ j _ Hs) by congruence.
      apply sigset_test_zero, Hj.
  - exfalso. unfold sigset_set in Hs.
    pose proof (word_index_in_range i Hi) as Hw.
    destruct (words sigset_zero !! word_index i) eqn:Hl; [discriminate|].
    apply lookup_ge_None in Hl. simpl in Hl. lia.
Qed.

Lemma sigset_set_then_test_witness :
  sig sigset_zero = __bits sigset_zero
  /\ length (sig sigset_zero) = 2%nat
  /\ sigset_bits sigset_zero = 64
  /\ exists s',
       sigset_set sigset_zero 63 = Some s'
       /\ sigset_bits s' = 64
       /\ sigset_test s' 63 = Some true
       /\ forall j : N, (j < 64)%N -> j <> 63%N -> sigset_test s' j = Some false.
Proof. apply (sigset_set_then_test 63). reflexivity. Defined.

(** ** [pselect] *)

Lemma count_nonneg s : 0 <= count s.
Proof. destruct s; simpl; lia. Qed.

(** A wait that ends restores the saved mask and returns a count with no
    error code, or [-1] with the code of the host's failure. *)
Lemma end_wait_returns a w saved s s' :
  end_wait a w saved s = Some s' ->
  active_mask s' = saved
  /\ ((exists k, 0 <= k /\ ph s' = Returned k None
                 /\ forall code, w <> WaitFailed code)
      \/ (exists code, w = WaitFailed code
                       /\ ph s' = Returned (-1) (Some code)
                       /\ rd s' = rd s /\ wr s' = wr s /\ ex s' = ex s)).
Proof.
  unfold end_wait. destruct w as [r w e| |code].
  - destruct (_ =? 0); [discriminate|].
    intros E; injection E as <-. simpl. split; [reflexivity|]. left.
    eexists. split; [|split; [reflexivity|discriminate]].
    pose proof (count_nonneg (ready_subset (nfds a) (rd s) r)).
    pose proof (count_nonneg (ready_subset (nfds a) (wr s) w)).
    pose proof (count_nonneg (ready_subset (nfds a) (ex s) e)).
    lia.
  - destruct (timeout a); [|discriminate].
    intros E; injection E as <-. simpl. split; [reflexivity|]. left.
    exists 0. split; [lia|split; [reflexivity|discriminate]].
  - intros E; injection E as <-. simpl. split; [reflexivity|]. right.
    exists code. repeat split; reflexivity.
Qed.

Lemma end_wait_wakes a w m0 :
  wakes a w = true ->
  exists s', end_wait a w m0 (begin_wait a (pselect_enter a m0)) = Some s'.
Proof.
  unfold wakes, end_wait, begin_wait, pselect_enter; simpl.
  destruct w as [r w e| |code].
  - intros H. apply negb_true_iff in H. rewrite H. eauto.
  - destruct (timeout a); [eauto|discriminate].
  - eauto.
Qed.

(** C2: for a call with a non-null mask [m], entered with [m0] active.
    (1) The call is two atomic steps and passes through three states only:
    entered, with [m0] active; waiting, with [m] active and [m0] saved,
    reached by the one step that begins the wait; returned, with [m0] active
    again, reached by the one step that ends the wait.  So [m] is never
    active unless the caller waits, and the caller never waits under another
    mask.  (2) Whenever the host ends the wait, by readiness, by timeout or
    by the failure of its call, the call returns and the mask active
    afterwards is [m0]: either with a count that is not negative and no
    error code, or, exactly when the host call failed, with [-1], the code
    of the failure, and the three sets as they were passed. *)
Theorem pselect_restores_mask a w m m0 :
  sigmask a = Some m ->
  (forall n s,
     pselect_steps a w n (pselect_enter a m0) = Some s ->
     match ph s with
     | Entered => n = 0%nat /\ active_mask s = m0
     | Waiting saved => n = 1%nat /\ active_mask s = m /\ saved = m0
     | Returned _ _ => n = 2%nat /\ active_mask s = m0
     end)
  /\ (wakes a w = true ->
      exists r err sets,
        pselect a w m0 = Some (r, err, sets, m0)
        /\ ((0 <= r /\ err = None /\ forall code, w <> WaitFailed code)
            \/ (exists code, w = WaitFailed code /\ r = -1 /\ err = Some code
                             /\ sets = (readfds a, writefds a, exceptfds a)))).
Proof.
  intros Hm. split.
  - intros n s Hs.
    destruct n as [|[|[|n]]]; simpl in Hs.
    + injection Hs as <-. simpl. auto.
    + injection Hs as <-. simpl. rewrite Hm. auto.
    + unfold pselect_step in Hs; simpl in Hs.
      destruct (end_wait a w m0 (begin_wait a (pselect_enter a m0)))
        as [s1|] eqn:He; [|discriminate].
      injection Hs as <-.
      destruct (end_wait_returns _ _ _ _ _ He)
        as [Ha [(k & _ & Hk & _)|(code & _ & Hk & _)]];
        rewrite Hk; auto.
    + unfold pselect_step in Hs; simpl in Hs.
      destruct (end_wait a w m0 (begin_wait a (pselect_enter a m0)))
        as [s1|] eqn:He; [|discriminate].
      destruct (end_wait_returns _ _ _ _ _ He)
        as [_ [(k & _ & Hk & _)|(code & _ & Hk & _)]];
        rewrite Hk in Hs; discriminate.
  - intros Hw. destruct (end_wait_wakes a w m0 Hw) as [s' He].
    unfold pselect. simpl. unfold pselect_step; simpl. rewrite He.
    destruct (end_wait_returns _ _ _ _ _ He)
      as [Ha [(k & Hk0 & Hk & Hnf)|(code & Hw' & Hk & Hrd & Hwr & Hex)]];
      rewrite Hk, Ha.
    + exists k, None, (rd s', wr s', ex s'). split; [reflexivity|]. left. auto.
    + exists (-1), (Some code), (rd s', wr s', ex s').
      split; [reflexivity|]. right. exists code.
      rewrite Hrd, Hwr, Hex. simpl. auto.
Qed.

Lemma pselect_restores_mask_witness :
  (exists s,
     pselect_steps args0 wake0 1 (pselect_enter args0 sigset_zero) = Some s
     /\ match ph s with
        | Entered => 1%nat = 0%nat /\ active_mask s = sigset_zero
        | Waiting saved => 1%nat = 1%nat /\ active_mask s = mask_2 /\ saved = sigset_zero
        | Returned _ _ => 1%nat = 2%nat /\ active_mask s = sigset_zero
        end)
  /\ (exists r err sets,
        pselect args0 wake0 sigset_zero = Some (r, err, sets, sigset_zero)
        /\ ((0 <= r /\ err = None /\ forall code, wake0 <> WaitFailed code)
            \/ (exists code, wake0 = WaitFailed code /\ r = -1 /\ err = Some code
                             /\ sets = (readfds args0, writefds args0, exceptfds args0))))
  /\ (exists r err sets,
        pselect args0 (WaitFailed 4) sigset_zero = Some (r, err, sets, sigset_zero)
        /\ ((0 <= r /\ err = None /\ forall code, WaitFailed 4 <> WaitFailed code)
            \/ (exists code, WaitFailed 4 = WaitFailed code /\ r = -1 /\ err = Some code
                             /\ sets = (readfds args0, writefds args0, exceptfds args0)))).
Proof.
  destruct (pselect_restores_mask args0 wake0 mask_2 sigset_zero eq_refl)
    as [Hinv Hret].
  split; [|split].
  - exists (begin_wait args0 (pselect_enter args0 sigset_zero)).
    split; [reflexivity|].
    apply (Hinv 1%nat (begin_wait args0 (pselect_enter args0 sigset_zero))).
    reflexivity.
  - apply Hret. vm_compute. reflexivity.
  - apply (proj2 (pselect_restores_mask args0 (WaitFailed 4) mask_2
                    sigset_zero eq_refl)).
    reflexivity.
Defined.

(** The specification's example: a null timeout and a read set holding one
    descriptor that is ready at once give 1. *)
Example pselect_one_ready :
  match pselect args0 wake0 sigset_zero with
  | Some (r, None, (Some s, None, None), m) =>
      r = 1 /\ elements s = [3] /\ m = sigset_zero
  | _ => False
  end.
Proof. vm_compute. repeat split. Qed.

(** A failing host call gives [-1] with its code, under the old mask. *)
Example pselect_host_failure :
  pselect args0 (WaitFailed 4) sigset_zero
  = Some (-1, Some 4, (readfds args0, None, None), sigset_zero).
Proof. reflexivity. Qed.

(** * Further properties of the code *)

(** ** [ttyname_r], WASI branch *)

Lemma read_cstr_not_found m d cap :
  (forall i, (i < cap)%nat -> is_nul (m (d + N.of_nat i)%N) = false) ->
  read_cstr m d cap = None.
Proof.
  revert d; induction cap as [|cap IH]; intros d H; [reflexivity|]. simpl.
  assert (H0 : is_nul (m d) = false).
  { rewrite <- (N.add_0_r d). apply (H 0%nat). lia. }
  rewrite H0, IH; [reflexivity|].
  intros i Hi. specialize (H (S i) ltac:(lia)).
  rewrite <- H. do 2 f_equal. lia.
Qed.

Lemma no_nul_nth p i :
  forallb (fun b => negb (is_nul b)) p = true ->
  (i < length p)%nat -> is_nul (nth i p x00) = false.
Proof.
  revert i; induction p as [|c p IH]; intros i Hp Hi; [simpl in Hi; lia|].
  simpl in Hp. apply andb_true_iff in Hp as [Hc Hp].
  destruct i as [|i]; simpl.
  - now apply negb_true_iff.
  - apply IH; [assumption|simpl in Hi; lia].
Qed.

Lemma nth_replicate_default {A} (x : A) n i : nth i (replicate n x) x = x.
Proof.
  revert i; induction n as [|n IH]; intros [|i]; simpl; try reflexivity.
  apply IH.
Qed.

(** X3: when the query succeeds and the descriptor is a terminal but the
    capacity does not exceed the length of the path, the call still returns
    0; the buffer then holds the first [size] characters of the path and no
    NUL, so no terminated string can be read from it. *)
Theorem ttyname_r_truncates_without_terminator K h fd name size st p :
  fst (tty_get h) = 0 ->
  tty_path (snd (tty_get h)) fd = Some p ->
  (N.to_nat size <= length p)%nat ->
  fst (ttyname_r K h fd name size st) = 0
  /\ (forall i, (i < N.to_nat size)%nat ->
        mem (snd (ttyname_r K h fd name size st)) (name + N.of_nat i)%N
        = nth i p x00)
  /\ read_cstr (mem (snd (ttyname_r K h fd name size st))) name (N.to_nat size)
     = None.
Proof.
  intros Hr Hp Hlen. rewrite (ttyname_r_query_ok K h fd name size st Hr), Hp.
  simpl. pose proof (tty_path_no_nul _ _ _ Hp) as Hnn.
  assert (Hbytes : forall i, (i < N.to_nat size)%nat ->
            mem (snd (strncpy_loop name p (N.to_nat size) (queried st)))
                (name + N.of_nat i)%N = nth i p x00).
  { intros i Hi. rewrite strncpy_loop_mem_inside by exact Hi.
    rewrite (strncpy_bytes_no_nul _ _ Hnn).
    rewrite app_nth1 by (rewrite length_take; lia).
    rewrite <- (firstn_skipn (N.to_nat size) p) at 2.
    rewrite app_nth1 by (rewrite length_take; lia). reflexivity. }
  split; [reflexivity|]. split; [exact Hbytes|].
  apply read_cstr_not_found. intros i Hi.
  rewrite Hbytes by exact Hi. apply no_nul_nth; [exact Hnn|lia].
Qed.

Lemma ttyname_r_truncates_without_terminator_witness :
  fst (ttyname_r wasi_constants a_host 2 1024 11 st0) = 0
  /\ (forall i, (i < N.to_nat 11)%nat ->
        mem (snd (ttyname_r wasi_constants a_host 2 1024 11 st0))
            (1024 + N.of_nat i)%N
        = nth i (c_str "/dev/stderr") x00)
  /\ read_cstr (mem (snd (ttyname_r wasi_constants a_host 2 1024 11 st0)))
               1024 (N.to_nat 11)
     = None.
Proof.
  apply (ttyname_r_truncates_without_terminator
           wasi_constants a_host 2 1024%N 11%N st0 (c_str "/dev/stderr")).
  - reflexivity.
  - reflexivity.
  - vm_compute. lia.
Defined.

(** X4: on a successful copy the whole buffer is written: the call makes
    exactly [size] stores, and every byte of the buffer past the end of the
    path is NUL. *)
Theorem ttyname_r_fills_the_buffer K h fd name size st p :
  fst (tty_get h) = 0 ->
  tty_path (snd (tty_get h)) fd = Some p ->
  length (stores_of (trace (snd (ttyname_r K h fd name size st))))
  = (length (stores_of (trace st)) + N.to_nat size)%nat
  /\ forall i, (length p <= i < N.to_nat size)%nat ->
       mem (snd (ttyname_r K h fd name size st)) (name + N.of_nat i)%N = x00.
Proof.
  intros Hr Hp. rewrite (ttyname_r_query_ok K h fd name size st Hr), Hp.
  simpl. pose proof (tty_path_no_nul _ _ _ Hp) as Hnn. split.
  - rewrite strncpy_loop_trace. simpl. unfold stores_of.
    rewrite !List.filter_app, !length_app. simpl.
    fold (stores_of (stores_from name (strncpy_bytes p (N.to_nat size)))).
    rewrite stores_from_all_stores, stores_from_length, strncpy_bytes_length.
    lia.
  - intros i Hi. rewrite strncpy_loop_mem_inside by lia.
    rewrite (strncpy_bytes_no_nul _ _ Hnn).
    rewrite firstn_all2 by lia.
    rewrite app_nth2 by lia.
    apply nth_replicate_default.
Qed.

Lemma ttyname_r_fills_the_buffer_witness :
  length (stores_of (trace (snd (ttyname_r wasi_constants a_host 0 1024 64 st0))))
  = (length (stores_of (trace st0)) + N.to_nat 64)%nat
  /\ forall i, (length (c_str "/dev/stdin") <= i < N.to_nat 64)%nat ->
       mem (snd (ttyname_r wasi_constants a_host 0 1024 64 st0))
           (1024 + N.of_nat i)%N = x00.
Proof.
  apply (ttyname_r_fills_the_buffer
           wasi_constants a_host 0 1024%N 64%N st0 (c_str "/dev/stdin"));
    reflexivity.
Defined.

(** X5: [ttyname_r] returns 0 or [ENOTTY] and nothing else; provided
    [ENOTTY] is not 0, it returns 0 exactly when the query failed or the
    descriptor is 0, 1 or 2 with the flag of that stream equal to
    [__WASI_BOOL_TRUE].  A flag holding any other value, zero or not, gives
    [ENOTTY]. *)
Theorem ttyname_r_result_is_zero_or_ENOTTY K h fd name size st :
  (fst (ttyname_r K h fd name size st) = 0
   \/ fst (ttyname_r K h fd name size st) = ENOTTY K)
  /\ (ENOTTY K <> 0 ->
      (fst (ttyname_r K h fd name size st) = 0
       <-> fst (tty_get h) <> 0
           \/ (fd = 0 /\ stdin_tty (snd (tty_get h)) = __WASI_BOOL_TRUE)
           \/ (fd = 1 /\ stdout_tty (snd (tty_get h)) = __WASI_BOOL_TRUE)
           \/ (fd = 2 /\ stderr_tty (snd (tty_get h)) = __WASI_BOOL_TRUE))).
Proof.
  destruct (Z.eq_dec (fst (tty_get h)) 0) as [Hr|Hr].
  - rewrite (ttyname_r_query_ok K h fd name size st Hr). unfold tty_path.
    destruct (Z.eqb_spec fd 0) as [F0|F0];
      destruct (Z.eqb_spec fd 1) as [F1|F1];
      destruct (Z.eqb_spec fd 2) as [F2|F2];
      destruct (Z.eqb_spec (stdin_tty (snd (tty_get h))) __WASI_BOOL_TRUE);
      destruct (Z.eqb_spec (stdout_tty (snd (tty_get h))) __WASI_BOOL_TRUE);
      destruct (Z.eqb_spec (stderr_tty (snd (tty_get h))) __WASI_BOOL_TRUE);
      simpl; (split; [tauto|]); intros HK; split; intros H;
      try reflexivity; try tauto; try lia.
  - rewrite (ttyname_r_query_failed K h fd name size st Hr). simpl.
    split; [tauto|]. intros _. tauto.
Qed.

Lemma ttyname_r_result_is_zero_or_ENOTTY_witness :
  fst (ttyname_r wasi_constants (host_of (0, mkTty 80 24 0 0 2 1 1 0 0)) 0 1024 64 st0)
  = 0
  <-> fst (tty_get (host_of (0, mkTty 80 24 0 0 2 1 1 0 0))) <> 0
      \/ (0 = 0 /\ 2 = __WASI_BOOL_TRUE)
      \/ (0 = 1 /\ 1 = __WASI_BOOL_TRUE)
      \/ (0 = 2 /\ 1 = __WASI_BOOL_TRUE).
Proof.
  apply (proj2 (ttyname_r_result_is_zero_or_ENOTTY
                  wasi_constants (host_of (0, mkTty 80 24 0 0 2 1 1 0 0))
                  0 1024%N 64%N st0)).
  discriminate.
Defined.

(** ** [pthread_setname_np], upstream build *)

Ltac unfold_calls :=
  unfold pthread_setname_np_upstream, bind, pthread_setcancelstate,
    PTHREAD_CANCEL_DISABLE, prctl, open, write, close, emit, syscall_ret,
    get_errno, set_errno, ret, bind; simpl.


Lemma take_strnlen_no_nul s n :
  forallb (fun b => negb (is_nul b)) (take (strnlen s n) s) = true
  /\ length (take (strnlen s n) s) = strnlen s n.
Proof.
  revert n; induction s as [|c s IH]; intros [|n]; simpl; try (split; reflexivity).
  destruct (is_nul c) eqn:Hc; simpl; [split; reflexivity|].
  destruct (IH n) as [H1 H2]. rewrite Hc, H1, H2. split; reflexivity.
Qed.

(** X7: for the calling thread and a name within the bound, a failing
    [prctl] makes [pthread_setname_np] return the error number of that
    failure, which is also left in [errno]; [prctl] is the only call. *)
Theorem pthread_setname_np_upstream_prctl_failure K h self thread name st e :
  (strlen name <= 15)%nat ->
  pthread_eqb thread self = true ->
  sys_prctl h (PR_SET_NAME K) name = Failed e ->
  pthread_setname_np true K h self thread name st
  = (e, mkState e (mem st) (canceldisable st)
                (trace st ++ [EvPrctl (PR_SET_NAME K) name])).
Proof.
  intros Hlen Hself Hprctl. simpl. unfold pthread_setname_np_upstream.
  destruct (strnlen_16_within name Hlen) as [-> _].
  rewrite Hself. unfold prctl, bind, emit, syscall_ret, set_errno, get_errno, ret.
  rewrite Hprctl. reflexivity.
Qed.

Lemma pthread_setname_np_upstream_prctl_failure_witness :
  pthread_setname_np true linux_constants prctl_refused self0 self0
    (c_str "worker") st0
  = (1, mkState 1 (mem st0) (canceldisable st0)
                (trace st0 ++ [EvPrctl 15 (c_str "worker")])).
Proof.
  apply (pthread_setname_np_upstream_prctl_failure
           linux_constants prctl_refused self0 self0 (c_str "worker") st0 1).
  - vm_compute. lia.
  - reflexivity.
  - reflexivity.
Defined.

(** X8: for another thread and a name within the bound, when the [comm]
    file cannot be opened the call returns the error number of [open] and
    makes no further call: nothing is written and nothing is closed. *)
Theorem pthread_setname_np_upstream_open_failure K h self thread name st e :
  (strlen name <= 15)%nat ->
  pthread_eqb thread self = false ->
  sys_open h (snprintf_comm sizeof_f (tid thread)) (O_WRONLY K) = Failed e ->
  fst (pthread_setname_np true K h self thread name st) = e
  /\ errno (snd (pthread_setname_np true K h self thread name st)) = e
  /\ trace (snd (pthread_setname_np true K h self thread name st))
     = trace st ++ [EvOpen (snprintf_comm sizeof_f (tid thread)) (O_WRONLY K)].
Proof.
  intros Hlen Hother Hopen. simpl. unfold pthread_setname_np_upstream.
  destruct (strnlen_16_within name Hlen) as [-> ->].
  rewrite Hother. unfold_calls. rewrite Hopen. simpl.
  destruct ((0 <=? canceldisable st) && (canceldisable st <=? 2));
    simpl; repeat split; reflexivity.
Qed.

Lemma pthread_setname_np_upstream_open_failure_witness :
  fst (pthread_setname_np true linux_constants open_refused self0 other0
         (c_str "worker") st0) = 2
  /\ errno (snd (pthread_setname_np true linux_constants open_refused self0 other0
                   (c_str "worker") st0)) = 2
  /\ trace (snd (pthread_setname_np true linux_constants open_refused self0 other0
                   (c_str "worker") st0))
     = trace st0 ++ [EvOpen (snprintf_comm sizeof_f (tid other0)) 1].
Proof.
  apply (pthread_setname_np_upstream_open_failure
           linux_constants open_refused self0 other0 (c_str "worker") st0 2).
  - vm_compute. lia.
  - reflexivity.
  - reflexivity.
Defined.

(** X9: for another thread and a name within the bound, when the file opens
    but the write fails, the call returns the error number of the write; the
    descriptor is closed all the same, and a failure of that [close] does
    not change the result. *)
Theorem pthread_setname_np_upstream_write_failure K h self thread name st fd e :
  (strlen name <= 15)%nat ->
  pthread_eqb thread self = false ->
  sys_open h (snprintf_comm sizeof_f (tid thread)) (O_WRONLY K) = Done fd ->
  0 <= fd ->
  sys_write h fd (take (strlen name) name) = Failed e ->
  fst (pthread_setname_np true K h self thread name st) = e
  /\ trace (snd (pthread_setname_np true K h self thread name st))
     = trace st
       ++ [EvOpen (snprintf_comm sizeof_f (tid thread)) (O_WRONLY K);
           EvWrite fd (take (strlen name) name);
           EvClose fd].
Proof.
  intros Hlen Hother Hopen Hfd Hwrite. simpl.
  unfold pthread_setname_np_upstream.
  destruct (strnlen_16_within name Hlen) as [-> ->].
  rewrite Hother. unfold_calls. rewrite Hopen.
  destruct (Z.ltb_spec fd 0) as [?|_]; [lia|].
  rewrite Hwrite. simpl.
  destruct (Z.leb_spec 0 fd) as [_|?]; [|lia].
  destruct (sys_close h fd);
    destruct ((0 <=? canceldisable st) && (canceldisable st <=? 2));
    simpl; rewrite <- !app_assoc; split; reflexivity.
Qed.

Lemma pthread_setname_np_upstream_write_failure_witness :
  fst (pthread_setname_np true linux_constants write_and_close_refused
         self0 other0 (c_str "worker") st0) = 5
  /\ trace (snd (pthread_setname_np true linux_constants write_and_close_refused
                   self0 other0 (c_str "worker") st0))
     = trace st0
       ++ [EvOpen (snprintf_comm sizeof_f (tid other0)) 1;
           EvWrite 3 (take (strlen (c_str "worker")) (c_str "worker"));
           EvClose 3].
Proof.
  apply (pthread_setname_np_upstream_write_failure
           linux_constants write_and_close_refused self0 other0
           (c_str "worker") st0 3 5).
  - vm_compute. lia.
  - reflexivity.
  - reflexivity.
  - lia.
  - reflexivity.
Defined.

Ltac split_branches :=
  repeat match goal with
         | |- context [match ?x with Done _ => _ | Failed _ => _ end] =>
             destruct x eqn:?; simpl
         end;
  repeat match goal with
         | |- context [if ?b then _ else _] => destruct b eqn:?; simpl
         end.

(** X10: in the upstream build the calls [pthread_setname_np] makes are
    fixed by the name, the thread and the answer of [open], whatever [prctl],
    [write] and [close] answer: (1) none for a name longer than 15
    characters; (2) the one [prctl] for the calling thread; for another
    thread, (3) [open] alone when it fails or answers a negative number, and
    (4) otherwise [open], then [write] to the descriptor [open] returned of
    the characters of the name before its terminator, then [close] of that
    same descriptor.  (5) What is written is a prefix of the name of at most
    15 bytes, none of them NUL. *)
Theorem pthread_setname_np_upstream_exact_calls K h self thread name st :
  ((15 < strlen name)%nat ->
   trace (snd (pthread_setname_np true K h self thread name st)) = trace st)
  /\ ((strlen name <= 15)%nat ->
      pthread_eqb thread self = true ->
      trace (snd (pthread_setname_np true K h self thread name st))
      = trace st ++ [EvPrctl (PR_SET_NAME K) name])
  /\ ((strlen name <= 15)%nat ->
      pthread_eqb thread self = false ->
      (exists e, sys_open h (snprintf_comm sizeof_f (tid thread)) (O_WRONLY K)
                 = Failed e)
      \/ (exists fd, sys_open h (snprintf_comm sizeof_f (tid thread)) (O_WRONLY K)
                     = Done fd /\ fd < 0) ->
      trace (snd (pthread_setname_np true K h self thread name st))
      = trace st ++ [EvOpen (snprintf_comm sizeof_f (tid thread)) (O_WRONLY K)])
  /\ (forall fd,
      (strlen name <= 15)%nat ->
      pthread_eqb thread self = false ->
      sys_open h (snprintf_comm sizeof_f (tid thread)) (O_WRONLY K) = Done fd ->
      0 <= fd ->
      trace (snd (pthread_setname_np true K h self thread name st))
      = trace st
        ++ [EvOpen (snprintf_comm sizeof_f (tid thread)) (O_WRONLY K);
            EvWrite fd (take (strlen name) name);
            EvClose fd])
  /\ ((strlen name <= 15)%nat ->
      (length (take (strlen name) name) <= 15)%nat
      /\ forallb (fun b => negb (is_nul b)) (take (strlen name) name) = true
      /\ exists rest, name = take (strlen name) name ++ rest).
Proof.
  split; [|split; [|split; [|split]]].
  - intros Hlong. simpl. unfold pthread_setname_np_upstream.
    rewrite (strnlen_16_overlong name Hlong). reflexivity.
  - intros Hlen Hself. simpl. unfold pthread_setname_np_upstream.
    destruct (strnlen_16_within name Hlen) as [-> _].
    rewrite Hself. unfold_calls. split_branches; reflexivity.
  - intros Hlen Hother Hopen. simpl. unfold pthread_setname_np_upstream.
    destruct (strnlen_16_within name Hlen) as [-> ->].
    rewrite Hother. unfold_calls.
    destruct Hopen as [[e ->]|(fd & -> & Hneg)]; simpl.
    + split_branches; reflexivity.
    + destruct (Z.ltb_spec fd 0) as [_|?]; [|lia].
      destruct (Z.leb_spec 0 fd) as [?|_]; [lia|].
      simpl. split_branches; reflexivity.
  - intros fd Hlen Hother Hopen Hfd. simpl. unfold pthread_setname_np_upstream.
    destruct (strnlen_16_within name Hlen) as [-> ->].
    rewrite Hother. unfold_calls. rewrite Hopen.
    destruct (Z.ltb_spec fd 0) as [?|_]; [lia|].
    destruct (Z.leb_spec 0 fd) as [_|?]; [|lia].
    split_branches; rewrite <- !app_assoc; reflexivity.
  - intros Hlen. destruct (take_strnlen_no_nul name (length name)) as [Hnn Hl].
    fold (strlen name) in Hnn, Hl.
    split; [lia|]. split; [exact Hnn|].
    exists (drop (strlen name) name). symmetry. apply take_drop.
Qed.

Lemma pthread_setname_np_upstream_exact_calls_witness :
  trace (snd (pthread_setname_np true linux_constants write_and_close_refused
                self0 other0 (c_str "worker") st0))
  = trace st0
    ++ [EvOpen (snprintf_comm sizeof_f (tid other0)) 1;
        EvWrite 3 (take (strlen (c_str "worker")) (c_str "worker"));
        EvClose 3]
  /\ trace (snd (pthread_setname_np true linux_constants open_refused
                   self0 other0 (c_str "worker") st0))
     = trace st0 ++ [EvOpen (snprintf_comm sizeof_f (tid other0)) 1]
  /\ trace (snd (pthread_setname_np true linux_constants prctl_refused
                   self0 self0 (c_str "worker") st0))
     = trace st0 ++ [EvPrctl 15 (c_str "worker")]
  /\ trace (snd (pthread_setname_np true linux_constants a_host self0 other0
                   (c_str "a-name-that-is-definitely-too-long") st0))
     = trace st0
  /\ ((length (take (strlen (c_str "worker")) (c_str "worker")) <= 15)%nat
      /\ forallb (fun b => negb (is_nul b))
                 (take (strlen (c_str "worker")) (c_str "worker")) = true
      /\ exists rest,
           c_str "worker" = take (strlen (c_str "worker")) (c_str "worker") ++ rest).
Proof.
  split; [|split; [|split; [|split]]].
  - apply (proj1 (proj2 (proj2 (proj2
             (pthread_setname_np_upstream_exact_calls
                linux_constants write_and_close_refused self0 other0
                (c_str "worker") st0)))) 3).
    + vm_compute. lia.
    + reflexivity.
    + reflexivity.
    + lia.
  - apply (proj1 (proj2 (proj2
             (pthread_setname_np_upstream_exact_calls
                linux_constants open_refused self0 other0
                (c_str "worker") st0)))).
    + vm_compute. lia.
    + reflexivity.
    + left. exists 2. reflexivity.
  - apply (proj1 (proj2
             (pthread_setname_np_upstream_exact_calls
                linux_constants prctl_refused self0 self0
                (c_str "worker") st0))).
    + vm_compute. lia.
    + reflexivity.
  - apply (proj1 (pthread_setname_np_upstream_exact_calls
                    linux_constants a_host self0 other0
                    (c_str "a-name-that-is-definitely-too-long") st0)).
    vm_compute. lia.
  - apply (proj2 (proj2 (proj2 (proj2
             (pthread_setname_np_upstream_exact_calls
                linux_constants a_host self0 other0
                (c_str "worker") st0))))).
    vm_compute. lia.
Defined.

(** X11: [pthread_setname_np] never stores into memory, in either build and
    whatever the host answers, and it leaves the cancel state of the caller
    as it found it (for the values 0, 1, 2 a cancel state can take). *)
Theorem pthread_setname_np_keeps_memory_and_cancel_state
    b K h self thread name st :
  mem (snd (pthread_setname_np b K h self thread name st)) = mem st
  /\ stores_of (trace (snd (pthread_setname_np b K h self thread name st)))
     = stores_of (trace st)
  /\ (0 <= canceldisable st <= 2 ->
      canceldisable (snd (pthread_setname_np b K h self thread name st))
      = canceldisable st).
Proof.
  destruct b; simpl; [|auto].
  unfold pthread_setname_np_upstream.
  destruct (15 <? strnlen name 16)%nat; [simpl; auto|].
  destruct (pthread_eqb thread self).
  { unfold_calls. split_branches; unfold stores_of;
      rewrite ?List.filter_app; simpl; rewrite ?app_nil_r; auto. }
  unfold_calls.
  destruct (Z.leb_spec 0 (canceldisable st));
    destruct (Z.leb_spec (canceldisable st) 2); simpl;
    split_branches; unfold stores_of;
    rewrite ?List.filter_app; simpl; rewrite ?app_nil_r;
    (split; [reflexivity|split; [reflexivity|intros; try reflexivity; lia]]).
Qed.

Lemma pthread_setname_np_keeps_memory_and_cancel_state_witness :
  canceldisable (snd (pthread_setname_np true linux_constants
                        write_and_close_refused self0 other0
                        (c_str "worker") (mkState 0 (mem st0) 2 [])))
  = 2.
Proof.
  apply (proj2 (proj2 (pthread_setname_np_keeps_memory_and_cancel_state
                         true linux_constants write_and_close_refused
                         self0 other0 (c_str "worker")
                         (mkState 0 (mem st0) 2 [])))).
  simpl. lia.
Defined.

(** ** [ttyname_r], upstream branch *)

Lemma store_bytes_run d bs st :
  store_bytes d bs st = (tt, snd (store_bytes d bs st)).
Proof. destruct (store_bytes d bs st) as [[] st']; reflexivity. Qed.

Lemma store_bytes_errno d bs st :
  errno (snd (store_bytes d bs st)) = errno st.
Proof.
  revert d st; induction bs as [|b bs IH]; intros d st; simpl; [reflexivity|].
  unfold bind; simpl. now rewrite IH.
Qed.

Lemma store_bytes_trace d bs st :
  trace (snd (store_bytes d bs st)) = trace st ++ stores_from d bs.
Proof.
  revert d st; induction bs as [|b bs IH]; intros d st; simpl.
  - now rewrite app_nil_r.
  - unfold bind; simpl. rewrite IH; simpl. now rewrite <- app_assoc.
Qed.

Lemma store_bytes_mem_outside d bs st a :
  ~ (d <= a < d + N.of_nat (length bs))%N ->
  mem (snd (store_bytes d bs st)) a = mem st a.
Proof.
  revert d st; induction bs as [|b bs IH]; intros d st Hout; simpl; [reflexivity|].
  unfold bind; simpl. simpl in Hout. rewrite IH by lia; simpl.
  destruct (N.eqb_spec a d); [lia|reflexivity].
Qed.

Lemma store_bytes_mem_inside d bs st i :
  (i < length bs)%nat ->
  mem (snd (store_bytes d bs st)) (d + N.of_nat i) = nth i bs x00.
Proof.
  revert d st i; induction bs as [|b bs IH]; intros d st i Hi; simpl in Hi; [lia|].
  destruct i as [|i].
  - replace (d + N.of_nat 0)%N with d by lia.
    simpl. unfold bind; simpl.
    rewrite store_bytes_mem_outside by lia. simpl. now rewrite N.eqb_refl.
  - replace (d + N.of_nat (S i))%N with (N.succ d + N.of_nat i)%N by lia.
    simpl. unfold bind; simpl. apply IH. lia.
Qed.

Ltac split_stats :=
  repeat match goal with
         | |- context [match ?x with StatDone _ _ => _ | StatFailed _ => _ end] =>
             destruct x eqn:?; simpl
         end;
  repeat match goal with
         | |- context [if ?b then _ else _] => destruct b eqn:?; simpl
         end.

Ltac after_readlink target size :=
  rewrite store_bytes_run;
  destruct (Z.ltb_spec (Z.of_nat (length (take (N.to_nat size) target))) 0);
    [lia|];
  destruct (Z.of_nat (length (take (N.to_nat size) target)) =? Z.of_N size)
    eqn:Hfull; simpl.

Lemma ttyname_r_upstream_trace K ENODEV ph fd name size st :
  trace (snd (ttyname_r_upstream K ENODEV ph fd name size st))
  = trace st ++ upstream_stores ph fd name size.
Proof.
  unfold ttyname_r_upstream, upstream_stores, isatty, bind.
  destruct (tty_check ph fd) as [t oe]; simpl.
  destruct oe; unfold bind, set_errno, ret; simpl;
    (destruct (t =? 0); simpl; [now rewrite app_nil_r|]);
    unfold readlink;
    (destruct (link_target ph (__procfdname fd)) as [target|e];
     unfold bind, set_errno, get_errno, ret; simpl;
     [|now rewrite app_nil_r]);
    after_readlink target size;
    try (rewrite store_bytes_trace, app_nil_r; reflexivity);
    unfold stat, fstat, stat_ret, bind, set_errno, get_errno, ret, store;
    rewrite Nat2Z.id;
    replace (Z.to_N (Z.of_nat (length (take (N.to_nat size) target))))
      with (N.of_nat (length (take (N.to_nat size) target))) by lia;
    split_stats; rewrite store_bytes_trace, <- app_assoc; reflexivity.
Qed.

Lemma upstream_stores_in_buffer ph fd name size :
  (length (stores_of (upstream_stores ph fd name size)) <= N.to_nat size)%nat
  /\ forall a b, In (EvStore a b) (upstream_stores ph fd name size) ->
                 (name <= a < name + size)%N.
Proof.
  unfold upstream_stores.
  destruct (fst (tty_check ph fd) =? 0); [simpl; split; [lia|tauto]|].
  destruct (link_target ph (__procfdname fd)) as [target|e];
    [|simpl; split; [lia|tauto]].
  pose proof (length_take target (N.to_nat size)) as Hle.
  destruct (Z.eqb_spec (Z.of_nat (length (take (N.to_nat size) target)))
                       (Z.of_N size)) as [Heq|Hne].
  - rewrite app_nil_r, stores_from_all_stores, stores_from_length.
    split; [lia|].
    intros a b HIn. apply stores_from_range in HIn. lia.
  - unfold stores_of. rewrite List.filter_app, length_app.
    fold (stores_of (stores_from name (take (N.to_nat size) target))).
    rewrite stores_from_all_stores, stores_from_length. simpl.
    split; [lia|].
    intros a b HIn. apply in_app_or in HIn as [HIn|[E|[]]].
    + apply stores_from_range in HIn. lia.
    + injection E as <- <-. lia.
Qed.

Lemma ttyname_r_upstream_mem_outside K ENODEV ph fd name size st a :
  ~ (name <= a < name + size)%N ->
  mem (snd (ttyname_r_upstream K ENODEV ph fd name size st)) a = mem st a.
Proof.
  intros Hout.
  unfold ttyname_r_upstream, isatty, bind.
  destruct (tty_check ph fd) as [t oe]; simpl.
  destruct oe; unfold bind, set_errno, ret; simpl;
    (destruct (t =? 0); simpl; [reflexivity|]);
    unfold readlink;
    (destruct (link_target ph (__procfdname fd)) as [target|e];
     unfold bind, set_errno, get_errno, ret; simpl;
     [|reflexivity]);
    pose proof (length_take target (N.to_nat size)) as Hle;
    after_readlink target size;
    try (rewrite store_bytes_mem_outside by lia; reflexivity);
    apply Z.eqb_neq in Hfull;
    unfold stat, fstat, stat_ret, bind, set_errno, get_errno, ret, store;
    split_stats;
    match goal with
    | H : (a =? _)%N = true |- _ => apply N.eqb_eq in H; lia
    | _ => rewrite store_bytes_mem_outside by lia; reflexivity
    end.
Qed.

(** X12: whatever the host answers, the upstream branch stores at most
    [size] bytes, the terminator included, all of them inside the buffer
    [name .. name + size - 1], and leaves the rest of memory as it was. *)
Theorem ttyname_r_upstream_writes_at_most_capacity
    K ENODEV ph fd name size st :
  exists evs,
    trace (snd (ttyname_r_upstream K ENODEV ph fd name size st))
    = trace st ++ evs
    /\ (length (stores_of evs) <= N.to_nat size)%nat
    /\ (forall a b, In (EvStore a b) evs -> (name <= a < name + size)%N)
    /\ (forall a, ~ (name <= a < name + size)%N ->
          mem (snd (ttyname_r_upstream K ENODEV ph fd name size st)) a
          = mem st a).
Proof.
  exists (upstream_stores ph fd name size).
  split; [apply ttyname_r_upstream_trace|].
  destruct (upstream_stores_in_buffer ph fd name size) as [Hlen Hrange].
  split; [exact Hlen|]. split; [exact Hrange|].
  intros a Ha. now apply ttyname_r_upstream_mem_outside.
Qed.

Lemma cstr_at_found m d bs fuel :
  (forall i, (i < length bs)%nat -> m (d + N.of_nat i)%N = nth i bs x00) ->
  forallb (fun b => negb (is_nul b)) bs = true ->
  m (d + N.of_nat (length bs))%N = x00 ->
  (length bs < fuel)%nat ->
  cstr_at m d fuel = bs.
Proof.
  revert d fuel; induction bs as [|b bs IH]; intros d fuel Hbs Hnn Hz Hfuel;
    (destruct fuel as [|fuel]; [simpl in Hfuel; lia|]); simpl in Hfuel; simpl.
  - assert (H0 : m d = x00) by (rewrite <- Hz; f_equal; simpl; lia).
    now rewrite H0.
  - simpl in Hnn. apply andb_true_iff in Hnn as [Hb Hnn].
    assert (H0 : m d = b).
    { rewrite <- (N.add_0_r d). apply (Hbs 0%nat). simpl; lia. }
    rewrite H0. apply negb_true_iff in Hb. rewrite Hb. f_equal.
    apply IH; [|assumption| |lia].
    + intros i Hi. specialize (Hbs (S i) ltac:(simpl; lia)).
      change (nth (S i) (b :: bs) x00) with (nth i bs x00) in Hbs.
      rewrite <- Hbs. f_equal. lia.
    + rewrite <- Hz. f_equal. simpl length. lia.
Qed.

Lemma ttyname_r_upstream_named K ENODEV ph fd name size st target :
  fst (tty_check ph fd) <> 0 ->
  link_target ph (__procfdname fd) = inl target ->
  (length target < N.to_nat size)%nat ->
  forallb (fun b => negb (is_nul b)) target = true ->
  (forall i, (i < length target)%nat ->
     mem (snd (ttyname_r_upstream K ENODEV ph fd name size st))
         (name + N.of_nat i)%N = nth i target x00)
  /\ mem (snd (ttyname_r_upstream K ENODEV ph fd name size st))
         (name + N.of_nat (length target))%N = x00
  /\ fst (ttyname_r_upstream K ENODEV ph fd name size st)
     = identity_check ENODEV (path_stat ph target) (fd_stat ph fd).
Proof.
  intros Ht Hlink Hlen Hnn.
  unfold ttyname_r_upstream, isatty, bind, identity_check.
  apply Z.eqb_neq in Ht.
  destruct (tty_check ph fd) as [t oe]; simpl in Ht |- *.
  destruct oe; unfold bind, set_errno, ret; simpl; rewrite Ht;
    unfold readlink; rewrite Hlink; rewrite firstn_all2 by lia;
    unfold bind, ret;
    rewrite store_bytes_run;
    (destruct (Z.ltb_spec (Z.of_nat (length target)) 0); [lia|]);
    (destruct (Z.eqb_spec (Z.of_nat (length target)) (Z.of_N size)); [lia|]);
    unfold stat, store; rewrite Nat2Z.id;
    replace (Z.to_N (Z.of_nat (length target)))
      with (N.of_nat (length target)) by lia;
    cbv beta iota; cbn [mem];
    (erewrite (cstr_at_found _ name target);
     [ | intros i Hi; cbv beta;
         (destruct (N.eqb_spec (name + N.of_nat i)
                     (name + N.of_nat (length target))); [lia|]);
         apply store_bytes_mem_inside; exact Hi
       | exact Hnn
       | cbv beta; now rewrite N.eqb_refl
       | lia ]);
    unfold fstat, stat_ret, bind, set_errno, get_errno, ret;
    split_stats;
    (split; [intros i Hi;
             (destruct (N.eqb_spec (name + N.of_nat i)
                          (name + N.of_nat (length target))); [lia|]);
             apply store_bytes_mem_inside; exact Hi|]);
    (split;
     [first [reflexivity
            | match goal with
              | H : (?x =? ?x)%N = false |- _ =>
                  rewrite N.eqb_refl in H; discriminate H
              end]|]);
    reflexivity.
Qed.

(** X13: in the upstream branch, when the descriptor is a terminal, the
    link behind it is shorter than the capacity, and [stat] of the name and
    [fstat] of the descriptor agree on device and inode, the call returns 0
    and the buffer holds the name followed by its terminator. *)
Theorem ttyname_r_upstream_success_is_terminated
    K ENODEV ph fd name size st target d i :
  fst (tty_check ph fd) <> 0 ->
  link_target ph (__procfdname fd) = inl target ->
  (length target < N.to_nat size)%nat ->
  forallb (fun b => negb (is_nul b)) target = true ->
  path_stat ph target = StatDone d i ->
  fd_stat ph fd = StatDone d i ->
  fst (ttyname_r_upstream K ENODEV ph fd name size st) = 0
  /\ read_cstr (mem (snd (ttyname_r_upstream K ENODEV ph fd name size st)))
               name (N.to_nat size)
     = Some target.
Proof.
  intros Ht Hlink Hlen Hnn Hs1 Hs2.
  destruct (ttyname_r_upstream_named K ENODEV ph fd name size st target
              Ht Hlink Hlen Hnn) as (Hbytes & Hnul & Hres).
  split.
  - rewrite Hres, Hs1, Hs2. unfold identity_check.
    now rewrite !Z.eqb_refl.
  - apply read_cstr_found; assumption.
Qed.

(** X15: with the same copy but [stat] and [fstat] disagreeing on the device
    or on the inode, the call returns [ENODEV]. *)
Theorem ttyname_r_upstream_identity_mismatch
    K ENODEV ph fd name size st target d1 i1 d2 i2 :
  fst (tty_check ph fd) <> 0 ->
  link_target ph (__procfdname fd) = inl target ->
  (length target < N.to_nat size)%nat ->
  forallb (fun b => negb (is_nul b)) target = true ->
  path_stat ph target = StatDone d1 i1 ->
  fd_stat ph fd = StatDone d2 i2 ->
  d1 <> d2 \/ i1 <> i2 ->
  fst (ttyname_r_upstream K ENODEV ph fd name size st) = ENODEV.
Proof.
  intros Ht Hlink Hlen Hnn Hs1 Hs2 Hdiff.
  destruct (ttyname_r_upstream_named K ENODEV ph fd name size st target
              Ht Hlink Hlen Hnn) as (_ & _ & Hres).
  rewrite Hres, Hs1, Hs2. unfold identity_check.
  destruct (Z.eqb_spec d1 d2); destruct (Z.eqb_spec i1 i2); simpl;
    try reflexivity.
  destruct Hdiff; contradiction.
Qed.

(** X14: in the upstream branch, when the descriptor is a terminal but the
    link is not shorter than the capacity, the call returns [ERANGE]; the
    buffer then holds the first [size] characters of the link and no
    terminator was stored.  A capacity of 0 is one such case. *)
Theorem ttyname_r_upstream_name_too_long K ENODEV ph fd name size st target :
  fst (tty_check ph fd) <> 0 ->
  link_target ph (__procfdname fd) = inl target ->
  (N.to_nat size <= length target)%nat ->
  fst (ttyname_r_upstream K ENODEV ph fd name size st) = ERANGE K
  /\ trace (snd (ttyname_r_upstream K ENODEV ph fd name size st))
     = trace st ++ stores_from name (take (N.to_nat size) target)
  /\ forall i, (i < N.to_nat size)%nat ->
       mem (snd (ttyname_r_upstream K ENODEV ph fd name size st))
           (name + N.of_nat i)%N
       = nth i target x00.
Proof.
  intros Ht Hlink Hlen.
  assert (Hfull : length (take (N.to_nat size) target) = N.to_nat size)
    by (rewrite length_take; lia).
  split; [|split].
  - unfold ttyname_r_upstream, isatty, bind.
    apply Z.eqb_neq in Ht.
    destruct (tty_check ph fd) as [t oe]; simpl in Ht |- *.
    destruct oe; unfold bind, set_errno, ret; simpl; rewrite Ht;
      unfold readlink; rewrite Hlink; unfold bind, ret;
      rewrite store_bytes_run, Hfull;
      (destruct (Z.ltb_spec (Z.of_nat (N.to_nat size)) 0); [lia|]);
      (destruct (Z.eqb_spec (Z.of_nat (N.to_nat size)) (Z.of_N size)); [|lia]);
      reflexivity.
  - rewrite ttyname_r_upstream_trace. unfold upstream_stores.
    apply Z.eqb_neq in Ht. rewrite Ht, Hlink, Hfull.
    destruct (Z.eqb_spec (Z.of_nat (N.to_nat size)) (Z.of_N size)); [|lia].
    now rewrite app_nil_r.
  - intros i Hi.
    unfold ttyname_r_upstream, isatty, bind.
    apply Z.eqb_neq in Ht.
    destruct (tty_check ph fd) as [t oe]; simpl in Ht |- *.
    destruct oe; unfold bind, set_errno, ret; simpl; rewrite Ht;
      unfold readlink; rewrite Hlink; unfold bind, ret;
      rewrite store_bytes_run, Hfull;
      (destruct (Z.ltb_spec (Z.of_nat (N.to_nat size)) 0); [lia|]);
      (destruct (Z.eqb_spec (Z.of_nat (N.to_nat size)) (Z.of_N size)); [|lia]);
      simpl; rewrite store_bytes_mem_inside by lia;
      rewrite <- (firstn_skipn (N.to_nat size) target) at 2;
      rewrite app_nth1 by lia; reflexivity.
Qed.

(** X16: in the upstream branch, when [isatty] answers 0 and leaves the
    error number [e], the call returns [e]; it reads no link and stores
    nothing. *)
Theorem ttyname_r_upstream_not_a_terminal K ENODEV ph fd name size st e :
  tty_check ph fd = (0, Some e) ->
  ttyname_r_upstream K ENODEV ph fd name size st
  = (e, mkState e (mem st) (canceldisable st) (trace st)).
Proof.
  intros Ht. unfold ttyname_r_upstream, isatty, bind. rewrite Ht. reflexivity.
Qed.

(** X17: in the upstream branch, when the descriptor is a terminal but
    [readlink] fails with the error number [e], the call returns [e] and
    stores nothing. *)
Theorem ttyname_r_upstream_readlink_failure K ENODEV ph fd name size st e :
  fst (tty_check ph fd) <> 0 ->
  link_target ph (__procfdname fd) = inr e ->
  fst (ttyname_r_upstream K ENODEV ph fd name size st) = e
  /\ mem (snd (ttyname_r_upstream K ENODEV ph fd name size st)) = mem st
  /\ trace (snd (ttyname_r_upstream K ENODEV ph fd name size st)) = trace st.
Proof.
  intros Ht Hlink. apply Z.eqb_neq in Ht.
  unfold ttyname_r_upstream, isatty, bind.
  destruct (tty_check ph fd) as [t oe]; simpl in Ht |- *.
  destruct oe; unfold bind, set_errno, ret; simpl; rewrite Ht;
    unfold readlink; rewrite Hlink; repeat split; reflexivity.
Qed.

Lemma ttyname_r_upstream_success_is_terminated_witness :
  fst (ttyname_r_upstream linux_constants 19 (pts_host 7) 0 1024 64 st0) = 0
  /\ read_cstr (mem (snd (ttyname_r_upstream linux_constants 19 (pts_host 7)
                            0 1024 64 st0)))
               1024 (N.to_nat 64)
     = Some (c_str "/dev/pts/0").
Proof.
  apply (ttyname_r_upstream_success_is_terminated
           linux_constants 19 (pts_host 7) 0 1024%N 64%N st0
           (c_str "/dev/pts/0") 5 7).
  - simpl. discriminate.
  - reflexivity.
  - vm_compute. lia.
  - reflexivity.
  - reflexivity.
  - reflexivity.
Defined.

Lemma ttyname_r_upstream_identity_mismatch_witness :
  fst (ttyname_r_upstream linux_constants 19 (pts_host 8) 0 1024 64 st0) = 19.
Proof.
  apply (ttyname_r_upstream_identity_mismatch
           linux_constants 19 (pts_host 8) 0 1024%N 64%N st0
           (c_str "/dev/pts/0") 5 7 5 8).
  - simpl. discriminate.
  - reflexivity.
  - vm_compute. lia.
  - reflexivity.
  - reflexivity.
  - reflexivity.
  - right. discriminate.
Defined.

Lemma ttyname_r_upstream_name_too_long_witness :
  fst (ttyname_r_upstream linux_constants 19 (pts_host 7) 0 1024 10 st0) = 34
  /\ trace (snd (ttyname_r_upstream linux_constants 19 (pts_host 7) 0 1024 10 st0))
     = trace st0 ++ stores_from 1024 (take (N.to_nat 10) (c_str "/dev/pts/0"))
  /\ forall i, (i < N.to_nat 10)%nat ->
       mem (snd (ttyname_r_upstream linux_constants 19 (pts_host 7) 0 1024 10 st0))
           (1024 + N.of_nat i)%N
       = nth i (c_str "/dev/pts/0") x00.
Proof.
  apply (ttyname_r_upstream_name_too_long
           linux_constants 19 (pts_host 7) 0 1024%N 10%N st0
           (c_str "/dev/pts/0")).
  - simpl. discriminate.
  - reflexivity.
  - vm_compute. lia.
Defined.

Lemma ttyname_r_upstream_not_a_terminal_witness :
  ttyname_r_upstream linux_constants 19 (pts_host 7) 7 1024 64 st0
  = (25, mkState 25 (mem st0) (canceldisable st0) (trace st0)).
Proof.
  apply (ttyname_r_upstream_not_a_terminal
           linux_constants 19 (pts_host 7) 7 1024%N 64%N st0 25).
  reflexivity.
Defined.

Lemma ttyname_r_upstream_readlink_failure_witness :
  fst (ttyname_r_upstream linux_constants 19 no_link_host 0 1024 64 st0) = 2
  /\ mem (snd (ttyname_r_upstream linux_constants 19 no_link_host 0 1024 64 st0))
     = mem st0
  /\ trace (snd (ttyname_r_upstream linux_constants 19 no_link_host 0 1024 64 st0))
     = trace st0.
Proof.
  apply (ttyname_r_upstream_readlink_failure
           linux_constants 19 no_link_host 0 1024%N 64%N st0 2).
  - simpl. discriminate.
  - reflexivity.
Defined.

(** ** [ttyname_r], WASI branch: the names it writes *)

(** X2: when the query succeeds, the descriptor is 0, 1 or 2 with the flag
    of its stream equal to [__WASI_BOOL_TRUE], and the capacity exceeds the
    length of the path of that stream, the call returns 0 and the buffer
    holds that path followed by its terminator. *)
Theorem ttyname_r_terminal_with_room K h fd name size st p :
  fst (tty_get h) = 0 ->
  (fd = 0 /\ stdin_tty (snd (tty_get h)) = __WASI_BOOL_TRUE
   /\ p = c_str "/dev/stdin")
  \/ (fd = 1 /\ stdout_tty (snd (tty_get h)) = __WASI_BOOL_TRUE
      /\ p = c_str "/dev/stdout")
  \/ (fd = 2 /\ stderr_tty (snd (tty_get h)) = __WASI_BOOL_TRUE
      /\ p = c_str "/dev/stderr") ->
  (length p < N.to_nat size)%nat ->
  fst (ttyname_r K h fd name size st) = 0
  /\ read_cstr (mem (snd (ttyname_r K h fd name size st))) name (N.to_nat size)
     = Some p.
Proof.
  intros Hr Hfd Hlen. apply ttyname_r_path_fits; [exact Hr| |exact Hlen].
  unfold tty_path.
  destruct Hfd as [(-> & Hf & ->)|[(-> & Hf & ->)|(-> & Hf & ->)]];
    rewrite Hf; reflexivity.
Qed.

Lemma ttyname_r_terminal_with_room_witness :
  fst (ttyname_r wasi_constants a_host 1 1024 12 st0) = 0
  /\ read_cstr (mem (snd (ttyname_r wasi_constants a_host 1 1024 12 st0)))
               1024 (N.to_nat 12)
     = Some (c_str "/dev/stdout").
Proof.
  apply (ttyname_r_terminal_with_room
           wasi_constants a_host 1 1024%N 12%N st0 (c_str "/dev/stdout")).
  - reflexivity.
  - right; left. repeat split; reflexivity.
  - vm_compute. lia.
Defined.

Lemma ttyname_r_errno_kept_witness :
  errno (snd (ttyname_r wasi_constants a_host 0 1024 64
                (mkState 7 (mem st0) 0 [])))
  = 7.
Proof.
  apply (ttyname_r_errno_kept wasi_constants a_host 0 1024%N 64%N
           (mkState 7 (mem st0) 0 [])).
  reflexivity.
Defined.

(** X18: the outcome of [ttyname_r] depends on the host only through the
    code of the query and the flag of the stream the descriptor names: two
    hosts that agree on these give the same result and the same final state,
    whatever they say about the screen, the echo and buffering modes and the
    other streams. *)
Theorem ttyname_r_reads_only_its_own_flag K h1 h2 fd name size st :
  fst (tty_get h1) = fst (tty_get h2) ->
  (fd = 0 -> stdin_tty (snd (tty_get h1)) = stdin_tty (snd (tty_get h2))) ->
  (fd = 1 -> stdout_tty (snd (tty_get h1)) = stdout_tty (snd (tty_get h2))) ->
  (fd = 2 -> stderr_tty (snd (tty_get h1)) = stderr_tty (snd (tty_get h2))) ->
  ttyname_r K h1 fd name size st = ttyname_r K h2 fd name size st.
Proof.
  intros Hr H0 H1 H2.
  destruct (Z.eq_dec (fst (tty_get h2)) 0) as [Hz|Hnz].
  - rewrite (ttyname_r_query_ok K h1 fd name size st) by congruence.
    rewrite (ttyname_r_query_ok K h2 fd name size st) by exact Hz.
    assert (tty_path (snd (tty_get h1)) fd = tty_path (snd (tty_get h2)) fd)
      as ->; [|reflexivity].
    unfold tty_path.
    destruct (Z.eqb_spec fd 0) as [E0|_]; [rewrite (H0 E0)|];
      destruct (Z.eqb_spec fd 1) as [E1|_]; try rewrite (H1 E1);
      destruct (Z.eqb_spec fd 2) as [E2|_]; try rewrite (H2 E2);
      reflexivity.
  - rewrite (ttyname_r_query_failed K h1 fd name size st) by congruence.
    rewrite (ttyname_r_query_failed K h2 fd name size st) by exact Hnz.
    now rewrite Hr.
Qed.

Lemma ttyname_r_reads_only_its_own_flag_witness :
  ttyname_r wasi_constants (host_of (0, tty_all)) 1 1024 64 st0
  = ttyname_r wasi_constants (host_of (0, mkTty 132 43 0 0 0 1 0 0 0)) 1 1024 64 st0.
Proof.
  apply (ttyname_r_reads_only_its_own_flag
           wasi_constants (host_of (0, tty_all))
           (host_of (0, mkTty 132 43 0 0 0 1 0 0 0)) 1 1024%N 64%N st0).
  - reflexivity.
  - discriminate.
  - reflexivity.
  - discriminate.
Defined.
